(** * ceda-di: file-level geospatial metadata (product.py)

    A shallow embedding of the two [Properties] classes of the repository,

      - [python/src/ceda_di/metadata/product.py]   (module [CedaDi] below),
      - [src/eufar/metadata/product.py]            (module [Eufar] below),

    together with the Python 2 built-ins they call (module [Py]) and the
    data mapping of the [json] library (module [Json]).

    Conventions of the embedding.
      - A Python float is an IEEE 754 binary64 value, [spec_float] of the
        Standard Library; comparisons are [SFltb] and [SFeqb], so a NaN
        compares false with everything, as in Python.
      - Code that may raise returns [result]; the exceptions are the ones
        the source can raise on the inputs of the embedding.
      - The caller's [spatial] dict is an object of a store ([gmap] from
        references to dicts): the ceda_di constructor writes to it.
      - [None] is [None] of [option]; a dict with fixed keys is a record. *)

From Stdlib Require Import ZArith List Bool Ascii Lia.
From Stdlib Require Import Floats.SpecFloat.
From stdpp Require Import base gmap strings list.

Open Scope string_scope.
Set Warnings "-register-all".

(* ===================================================================== *)
(** * Python built-ins used by product.py                                 *)
(* ===================================================================== *)

Module Py.

(** The exceptions the embedded code can raise. *)
Inductive exn : Type :=
| ValueError
| TypeError
| KeyError
| IndexError.

Inductive result (A : Type) : Type :=
| Ok (a : A)
| Raise (e : exn).
Arguments Ok {A} a.
Arguments Raise {A} e.

Definition bind {A B : Type} (m : result A) (k : A -> result B) : result B :=
  match m with
  | Ok a => k a
  | Raise e => Raise e
  end.

Definition raises {A : Type} (m : result A) : bool :=
  match m with
  | Ok _ => false
  | Raise _ => true
  end.

(** ** Floats *)

Definition pyfloat : Type := spec_float.

(** The float of an integer literal ([90] is [90.0], exactly). *)
Definition of_Z (z : Z) : pyfloat := binary_normalize 53 1024 z 0 false.

Definition nan : pyfloat := S754_nan.

(** [a < b], [a > b], [a <= b], [a == b] on floats. *)
Definition lt (a b : pyfloat) : bool := SFltb a b.
Definition gt (a b : pyfloat) : bool := SFltb b a.
Definition le (a b : pyfloat) : bool := SFleb a b.
Definition eq (a b : pyfloat) : bool := SFeqb a b.

Definition is_nan (a : pyfloat) : bool :=
  match a with
  | S754_nan => true
  | _ => false
  end.

(** ** [max] and [min] of a list

    CPython keeps the first item and replaces it by a later [item] only
    when [item > maxitem] (resp. [item < minitem]); an empty argument
    raises [ValueError]. *)

Fixpoint max_from (maxitem : pyfloat) (l : list pyfloat) : pyfloat :=
  match l with
  | [] => maxitem
  | item :: l' => max_from (if gt item maxitem then item else maxitem) l'
  end.

Fixpoint min_from (minitem : pyfloat) (l : list pyfloat) : pyfloat :=
  match l with
  | [] => minitem
  | item :: l' => min_from (if lt item minitem then item else minitem) l'
  end.

Definition max (l : list pyfloat) : result pyfloat :=
  match l with
  | [] => Raise ValueError
  | x :: l' => Ok (max_from x l')
  end.

Definition min (l : list pyfloat) : result pyfloat :=
  match l with
  | [] => Raise ValueError
  | x :: l' => Ok (min_from x l')
  end.

(** ** Extended slice [l[::step]]

    [every step skip l] keeps an item, then drops [step - 1] items;
    [skip] counts the items still to drop.  A zero step raises
    [ValueError] ("slice step cannot be zero"). *)

Fixpoint every {A : Type} (step skip : nat) (l : list A) : list A :=
  match l with
  | [] => []
  | x :: l' =>
      match skip with
      | O => x :: every step (step - 1) l'
      | S k => every step k l'
      end
  end.

Definition slice_step {A : Type} (l : list A) (step : nat) : result (list A) :=
  if Nat.eqb step 0 then Raise ValueError else Ok (every step 0 l).

(** [int(math.ceil(n / d))] under [from __future__ import division], for
    a positive literal [d].  The quotient of the true division is a
    binary64 float; it is the exact ceiling as long as [n] stays below
    2^49, which every list length does. *)
Definition ceil_div (n d : nat) : nat := (n + (d - 1)) / d.

(** [str.split(" ")]: the fields between single spaces; there is always
    at least one field. *)
Fixpoint split_space (s : string) : list string :=
  match s with
  | EmptyString => [EmptyString]
  | String c s' =>
      if Ascii.eqb c " "%char then EmptyString :: split_space s'
      else match split_space s' with
           | [] => [String c EmptyString]
           | f :: fs => String c f :: fs
           end
  end.

End Py.

Export Py (exn(..), result(..), pyfloat).

Notation "x <- m ;; k" := (Py.bind m (fun x => k))
  (at level 100, m at next level, right associativity, only parsing).

(* ===================================================================== *)
(** * Python values and the data mapping of the json library             *)
(* ===================================================================== *)

Module Json.

(** The code points of a byte string read as Latin text, and the test
    that all of them are below 128. *)
Fixpoint code_points (s : string) : list nat :=
  match s with
  | EmptyString => []
  | String c s' => nat_of_ascii c :: code_points s'
  end.

Definition ascii_text (s : string) : bool :=
  forallb (fun n => (n <? 128)%nat) (code_points s).

(** The Python values a metadata record is built from.  [PStr] is a
    [str], a byte string.  A dict is kept as the list of its items; its
    keys are byte strings.  [PObj] is an object of any other class, one
    the JSON encoder does not know, which has no buffer interface and no
    [__eq__] of its own; it is given by the byte string [repr] returns
    for it. *)
Inductive pyval : Type :=
| PNone
| PFloat (x : pyfloat)
| PStr (s : string)
| PList (l : list pyval)
| PTuple (l : list pyval)
| PDict (d : list (string * pyval))
| PObj (repr : string).

(** A JSON document.  Its strings are text: lists of code points. *)
Inductive json : Type :=
| JNull
| JNum (x : pyfloat)
| JStr (u : list nat)
| JArr (l : list json)
| JObj (d : list (list nat * json)).

(** The values [json.loads] builds: every string is a [unicode], and so
    is every key of a dict. *)
Inductive uval : Type :=
| UNone
| UFloat (x : pyfloat)
| UStr (u : list nat)
| UList (l : list uval)
| UDict (d : list (list nat * uval)).

Section MapM.

Context {A B : Type} (f : A -> result B).

(** A loop that stops at the first exception. *)
Fixpoint mapM (l : list A) : result (list B) :=
  match l with
  | [] => Ok []
  | a :: l' => b <- f a ;; bs <- mapM l' ;; Ok (b :: bs)
  end.

End MapM.

Section All2.

Context {A B : Type} (f : A -> B -> bool).

Fixpoint all2 (l : list A) (m : list B) : bool :=
  match l, m with
  | [], [] => true
  | a :: l', b :: m' => f a b && all2 l' m'
  | _, _ => false
  end.

End All2.

Section Encoder.

(** The UTF-8 codec on a byte string with a byte above 127: its text, or
    None where it raises UnicodeDecodeError. *)
Variable utf8_decode : string -> option (list nat).

(** The encoder reads a [str] as UTF-8: an ASCII string is its own text,
    any other goes through the codec, whose UnicodeDecodeError is a
    [ValueError]. *)
Definition decode (s : string) : result (list nat) :=
  if ascii_text s then Ok (code_points s)
  else match utf8_decode s with
       | Some u => Ok u
       | None => Raise ValueError
       end.

(** [json.dumps(v, default=repr)]: the encoder's conversion table (dict
    to object, list and tuple to array, str to string, float to number,
    None to null); an object it does not know goes through [default],
    here [repr], and the string it returns is encoded in its place.  The
    items of a list and of a dict are encoded in turn, a key before its
    value.  The text of the document is the json library's business; the
    embedding stops at the document. *)
Fixpoint dumps (v : pyval) : result json :=
  match v with
  | PNone => Ok JNull
  | PFloat x => Ok (JNum x)
  | PStr s => u <- decode s ;; Ok (JStr u)
  | PList l => js <- mapM dumps l ;; Ok (JArr js)
  | PTuple l => js <- mapM dumps l ;; Ok (JArr js)
  | PDict d =>
      js <- mapM (fun kv => k <- decode (fst kv) ;;
                            j <- dumps (snd kv) ;;
                            Ok (k, j)) d ;;
      Ok (JObj js)
  | PObj repr => u <- decode repr ;; Ok (JStr u)
  end.




End Encoder.

(** [d[k] = v] on the items of a dict with unicode keys. *)
Fixpoint set_item (d : list (list nat * uval)) (k : list nat) (v : uval)
  : list (list nat * uval) :=
  match d with
  | [] => [(k, v)]
  | (k', v') :: d' =>
      if bool_decide (k' = k) then (k', v) :: d'
      else (k', v') :: set_item d' k v
  end.

(** [dict(pairs)]: a later pair replaces an earlier one with its key. *)
Definition dict_of (pairs : list (list nat * uval)) : list (list nat * uval) :=
  fold_left (fun d kv => set_item d (fst kv) (snd kv)) pairs [].

(** [json.loads]: the decoder's conversion table (object to dict, array
    to list, string to unicode, number to float, null to None). *)
Fixpoint loads (j : json) : uval :=
  match j with
  | JNull => UNone
  | JNum x => UFloat x
  | JStr u => UStr u
  | JArr l => UList (map loads l)
  | JObj d => UDict (dict_of (map (fun kv => (fst kv, loads (snd kv))) d))
  end.

(** [u == s] for a unicode [u] and a str [s]: the str is decoded as
    ASCII; with a byte above 127 the comparison is False. *)
Definition unicode_eq_str (u : list nat) (s : string) : bool :=
  ascii_text s && bool_decide (u = code_points s).

(** [d[k]], or None, for a unicode key [k] and a dict with str keys. *)
Fixpoint lookup_key (k : list nat) (d : list (string * pyval)) : option pyval :=
  match d with
  | [] => None
  | (k', v) :: d' => if unicode_eq_str k k' then Some v else lookup_key k d'
  end.

(** [a == b] for a decoded value [a] and a value [b] of a record.  No
    object of [a] is an object of [b], so nothing is equal by identity.
    Floats compare by value, and NaN differs from NaN; a unicode equals
    a str of the same ASCII text; a list equals a list of the same
    length with equal items, and never a tuple; two dicts are equal when
    they have as many items and every key of the first is a key of the
    second, with an equal value. *)
Fixpoint py_eq (a : uval) (b : pyval) : bool :=
  match a, b with
  | UNone, PNone => true
  | UFloat x, PFloat y => Py.eq x y
  | UStr u, PStr s => unicode_eq_str u s
  | UList l, PList m => all2 py_eq l m
  | UDict d, PDict e =>
      (length d =? length e)%nat &&
      forallb (fun kx => match lookup_key (fst kx) e with
                         | Some y => py_eq (snd kx) y
                         | None => false
                         end) d
  | _, _ => false
  end.



(** [d[k]] and [k in d] on the items of a dict. *)
Fixpoint getitem (d : list (string * pyval)) (k : string) : option pyval :=
  match d with
  | [] => None
  | (k', v) :: d' => if String.eqb k' k then Some v else getitem d' k
  end.

Definition of_option {A : Type} (f : A -> pyval) (o : option A) : pyval :=
  match o with
  | None => PNone
  | Some a => f a
  end.

Definition of_float (o : option pyfloat) : pyval := of_option PFloat o.

End Json.

Export Json (pyval(..), json(..), uval(..)).

(* ===================================================================== *)
(** * Data shared by the two Properties classes                          *)
(* ===================================================================== *)

(** A value of the [spatial] dict: the reader hands over one sequence of
    floats per channel ("lat", "lon", "time", ...) and the line count. *)
Inductive chan : Type :=
| Scalar (x : pyfloat)
| Samples (l : list pyfloat).

(** The caller's [spatial] dict is a [gmap string chan]; the store maps
    references ([positive]) to such dicts.  The other groups (filesystem,
    temporal, data_format, kwargs) are dicts of values,
    [gmap string pyval]. *)

(** A (lon, lat) tuple. *)
Abbreviation point := (pyfloat * pyfloat)%type.

(** A [[lon, lat]] corner of a bounding box; either entry may be None. *)
Abbreviation corner := (option pyfloat * option pyfloat)%type.

(** [d[k]] on a dict of the store. *)
Definition getitem (d : gmap string chan) (k : string) : result chan :=
  match d !! k with
  | Some v => Ok v
  | None => Raise KeyError
  end.

(** What [len], iteration and slicing need: a sequence.  On a float they
    raise [TypeError]. *)
Definition samples (v : chan) : result (list pyfloat) :=
  match v with
  | Samples l => Ok l
  | Scalar _ => Raise TypeError
  end.

Definition info_pyval (d : gmap string pyval) : pyval :=
  PDict (map_to_list d).

Definition point_pyval (p : point) : pyval :=
  PTuple [PFloat (fst p); PFloat (snd p)].

Definition corner_pyval (c : corner) : pyval :=
  PList [Json.of_float (fst c); Json.of_float (snd c)].

(** {"type": ..., "coordinates": ...} *)
Record geometry (A : Type) : Type := Geometry {
  type : string;
  coordinates : list A
}.
Arguments Geometry {A} type coordinates.
Arguments type {A} g.
Arguments coordinates {A} g.

Definition geometry_pyval {A : Type} (f : A -> pyval) (g : geometry A) : pyval :=
  PDict [("type", PStr (type g)); ("coordinates", PList (map f (coordinates g)))].

(** The class [Parameter] ([Parameter] is a keyword here, hence the
    name): a name and its list of items; [get] returns the items. *)
Record param_item : Type := make_param_item {
  item_name : string;
  item_value : string
}.

Record ParameterObj : Type := {
  items : list param_item;
  name : string
}.

Definition get (p : ParameterObj) : list param_item := items p.

Definition param_item_pyval (i : param_item) : pyval :=
  PDict [("name", PStr (item_name i)); ("value", PStr (item_value i))].

Definition parameters_pyval (ps : list (list param_item)) : pyval :=
  PList (map (fun p => PList (map param_item_pyval p)) ps).

(* ===================================================================== *)
(** * python/src/ceda_di/metadata/product.py                             *)
(* ===================================================================== *)

Module CedaDi.

(** {"geometries": {"bbox": ..., "summary": ...}} *)
Record geojson : Type := {
  g_bbox : geometry corner;
  g_summary : geometry point
}.

(** The dict [self.properties]. *)
Record properties_dict : Type := {
  d_id : string;
  d_data_format : option (gmap string pyval);
  d_file : option (gmap string pyval);
  d_misc : gmap string pyval;
  d_parameters : option (list (list param_item));
  d_spatial : option geojson;
  d_temporal : option (gmap string pyval)
}.

(** The attributes of a constructed [Properties] object. *)
Record Properties : Type := {
  filesystem : option (gmap string pyval);
  temporal : option (gmap string pyval);
  data_format : option (gmap string pyval);
  parameters : option (list (list param_item));
  spatial : option geojson;
  misc : gmap string pyval;
  properties : properties_dict
}.

Definition valid_lat (num : pyfloat) : bool :=
  if Py.lt num (Py.of_Z (-90)) || Py.gt num (Py.of_Z 90) then false
  else true.

Definition valid_lon (num : pyfloat) : bool :=
  if Py.lt num (Py.of_Z (-180)) || Py.gt num (Py.of_Z 180) then false
  else true.

Definition _get_min_max (item_list : list pyfloat)
    (filter_func : option (pyfloat -> bool))
  : result (option pyfloat * option pyfloat) :=
  if (length item_list <? 1)%nat then Ok (None, None)
  else
    let item_list :=
      match filter_func with
      | Some f => List.filter f item_list
      | None => item_list
      end in
    high <- Py.max item_list ;;
    low <- Py.min item_list ;;
    Ok (Some low, Some high).

Definition _gen_bbox (coord_list : gmap string chan)
  : result (geometry corner) :=
  lons <- getitem coord_list "lon" ;;
  lats <- getitem coord_list "lat" ;;
  lons <- samples lons ;;
  lon_extent <- _get_min_max lons (Some valid_lon) ;;
  lats <- samples lats ;;
  lat_extent <- _get_min_max lats (Some valid_lat) ;;
  let '(lon_lo, lon_hi) := lon_extent in
  let '(lat_lo, lat_hi) := lat_extent in
  Ok (Geometry "MultiPoint"
        [(lon_lo, lat_lo); (lon_lo, lat_hi);
         (lon_hi, lat_hi); (lon_hi, lat_lo)]).

Definition num_points : nat := 30.

Definition _gen_coord_summary (coord_list : gmap string chan)
  : result (geometry point) :=
  lons <- getitem coord_list "lon" ;;
  lats <- getitem coord_list "lat" ;;
  lons <- samples lons ;;
  let step := Py.ceil_div (length lons) num_points in
  lons <- Py.slice_step lons step ;;
  lats <- samples lats ;;
  lats <- Py.slice_step lats step ;;
  Ok (Geometry "LineString" (zip lons lats)).

Definition _to_geojson (spatial : gmap string chan)
  : result (option geojson) :=
  lats <- getitem spatial "lat" ;;
  lons <- getitem spatial "lon" ;;
  lats <- samples lats ;;
  if (0 <? length lats)%nat then
    lons <- samples lons ;;
    if (0 <? length lons)%nat then
      bbox <- _gen_bbox spatial ;;
      summ <- _gen_coord_summary spatial ;;
      Ok (Some {| g_bbox := bbox; g_summary := summ |})
    else Ok None
  else Ok None.

(** [d[k] = filter(f, d[k])] on the dict at reference [r]: the dict of
    the store is updated in place. *)
Definition filter_item (f : pyfloat -> bool) (k : string) (r : positive)
    (h : gmap positive (gmap string chan))
  : result unit * gmap positive (gmap string chan) :=
  let d := default ∅ (h !! r) in
  match (v <- getitem d k ;; samples v) with
  | Ok l => (Ok tt, <[r := <[k := Samples (List.filter f l)]> d]> h)
  | Raise e => (Raise e, h)
  end.

(** Lines 43 to 47 of [__init__]: the value of [self.spatial], and the
    store they leave behind. *)
Definition init_spatial (spatial : option positive)
    (h : gmap positive (gmap string chan))
  : result (option geojson) * gmap positive (gmap string chan) :=
  match spatial with
  | None => (Ok None, h)
  | Some r =>
      match filter_item valid_lat "lat" r h with
      | (Raise e, h1) => (Raise e, h1)
      | (Ok _, h1) =>
          match filter_item valid_lon "lon" r h1 with
          | (Raise e, h2) => (Raise e, h2)
          | (Ok _, h2) => (_to_geojson (default ∅ (h2 !! r)), h2)
          end
      end
  end.

Section Init.

(** [hashlib.sha1(s).hexdigest()] *)
Variable sha1_hexdigest : string -> string.

(** [hashlib.sha1(self.filesystem["path"]).hexdigest()]: subscripting
    None and hashing a value that is not a string raise
    [TypeError]. *)
Definition identifier (filesystem : option (gmap string pyval))
  : result string :=
  match filesystem with
  | None => Raise TypeError
  | Some fs =>
      match fs !! "path" with
      | None => Raise KeyError
      | Some (PStr path) => Ok (sha1_hexdigest path)
      | Some _ => Raise TypeError
      end
  end.

Definition __init__
    (filesystem : option (gmap string pyval))
    (spatial : option positive)
    (temporal data_format : option (gmap string pyval))
    (parameters : option (list ParameterObj))
    (kwargs : gmap string pyval)
    (h : gmap positive (gmap string chan))
  : result Properties * gmap positive (gmap string chan) :=
  let parameters := option_map (map get) parameters in
  let '(spatial, h) := init_spatial spatial h in
  (spatial <- spatial ;;
   _id <- identifier filesystem ;;
   Ok {| filesystem := filesystem;
         temporal := temporal;
         data_format := data_format;
         parameters := parameters;
         spatial := spatial;
         misc := kwargs;
         properties :=
           {| d_id := _id;
              d_data_format := data_format;
              d_file := filesystem;
              d_misc := kwargs;
              d_parameters := parameters;
              d_spatial := spatial;
              d_temporal := temporal |} |},
   h).

End Init.

Definition geojson_pyval (g : geojson) : pyval :=
  PDict [("geometries",
          PDict [("bbox", geometry_pyval corner_pyval (g_bbox g));
                 ("summary", geometry_pyval point_pyval (g_summary g))])].

Definition properties_pyval (p : properties_dict) : pyval :=
  PDict [("_id", PStr (d_id p));
         ("data_format", Json.of_option info_pyval (d_data_format p));
         ("file", Json.of_option info_pyval (d_file p));
         ("misc", info_pyval (d_misc p));
         ("parameters", Json.of_option parameters_pyval (d_parameters p));
         ("spatial", Json.of_option geojson_pyval (d_spatial p));
         ("temporal", Json.of_option info_pyval (d_temporal p))].

Definition as_dict (self : Properties) : properties_dict :=
  properties self.

Section Dump.

Variable utf8_decode : string -> option (list nat).

(** [__str__]: [json.dumps(self.properties, default=repr)] *)
Definition __str__ (self : Properties) : result json :=
  Json.dumps utf8_decode (properties_pyval (properties self)).

Definition as_json (self : Properties) : result json := __str__ self.

End Dump.

End CedaDi.

(* ===================================================================== *)
(** * src/eufar/metadata/product.py                                      *)
(* ===================================================================== *)

Module Eufar.

(** {"geometries": {"coordinates": ..., "hull": ..., "bbox": ...}};
    the keys "hull" and "bbox" may be missing. *)
Record geojson : Type := {
  g_coordinates : list point;
  g_hull : option (geometry point);
  g_bbox : option (geometry corner)
}.

Definition _get_min_max (item_list : list pyfloat)
  : result (option pyfloat * option pyfloat) :=
  if (length item_list <? 1)%nat then Ok (None, None)
  else
    high <- Py.max item_list ;;
    low <- Py.min item_list ;;
    Ok (Some high, Some low).

Definition _gen_bbox (spatial : gmap string chan)
  : result (geometry corner) :=
  lons <- getitem spatial "lon" ;;
  lats <- getitem spatial "lat" ;;
  lons <- samples lons ;;
  lon_extent <- _get_min_max lons ;;
  lats <- samples lats ;;
  lat_extent <- _get_min_max lats ;;
  let '(lon_lo, lon_hi) := lon_extent in
  let '(lat_lo, lat_hi) := lat_extent in
  Ok (Geometry "MultiPoint"
        [(lon_lo, lat_lo); (lon_lo, lat_hi);
         (lon_hi, lat_lo); (lon_hi, lat_hi)]).

(** Equality of two (lon, lat) tuples, entry by entry. *)
Definition point_eq (p q : point) : bool :=
  Py.eq (fst p) (fst q) && Py.eq (snd p) (snd q).

(** [coord_set.add(p)].  A Python set lists its items in an order of
    its own; the embedding lists them in the order they were added. *)
Definition set_add (coord_set : list point) (p : point) : list point :=
  if existsb (point_eq p) coord_set then coord_set else coord_set ++ [p].

(** The loop [for lat, lon in zip(lats, lons): coord_set.add((lon, lat))]. *)
Definition coord_set_of (lats lons : list pyfloat) : list point :=
  fold_left (fun coord_set ll => set_add coord_set (snd ll, fst ll))
            (zip lats lons) [].

Section Hull.

(** [qconvex('p', coord_list)] of pyhull: the lines qhull prints. *)
Variable qconvex : list point -> list string.

(** [float(s)]; [None] stands for [ValueError]. *)
Variable float : string -> option pyfloat.

(** [(float(coords[0]), float(coords[1]))] inside the [try]: a
    [ValueError] is caught ([Ok None]), an [IndexError] is not. *)
Definition convert (coords : list string) : result (option point) :=
  match coords with
  | [] => Raise IndexError
  | c0 :: rest =>
      match float c0 with
      | None => Ok None
      | Some x =>
          match rest with
          | [] => Raise IndexError
          | c1 :: _ =>
              match float c1 with
              | None => Ok None
              | Some y => Ok (Some (x, y))
              end
          end
      end
  end.

(** The loop over [qhull_output[2:]]; [log] collects the arguments of
    [self.logger.error]. *)
Fixpoint hull_loop (lines : list string) (hull_coords : list point)
    (log : list (list string))
  : result (list point) * list (list string) :=
  match lines with
  | [] => (Ok hull_coords, log)
  | point :: lines' =>
      let coords := Py.split_space point in
      match convert coords with
      | Raise e => (Raise e, log)
      | Ok None => hull_loop lines' hull_coords (log ++ [coords])
      | Ok (Some p) => hull_loop lines' (hull_coords ++ [p]) log
      end
  end.

Definition _gen_hull (coord_list : list point)
  : result (geometry point) * list (list string) :=
  let qhull_output := qconvex coord_list in
  match hull_loop (drop 2 qhull_output) [] [] with
  | (Ok hull_coords, log) => (Ok (Geometry "Polygon" hull_coords), log)
  | (Raise e, log) => (Raise e, log)
  end.

Definition _to_geojson (spatial : gmap string chan)
  : result (option geojson) * list (list string) :=
  match
    (lats <- getitem spatial "lat" ;;
     lons <- getitem spatial "lon" ;;
     lats <- samples lats ;;
     if (0 <? length lats)%nat then
       lons <- samples lons ;;
       if (0 <? length lons)%nat then Ok (Some (lats, lons))
       else Ok None
     else Ok None)
  with
  | Raise e => (Raise e, [])
  | Ok None => (Ok None, [])
  | Ok (Some (lats, lons)) =>
      let coord_list := coord_set_of lats lons in
      if (3 <? length coord_list)%nat then
        match _gen_hull coord_list with
        | (Raise e, log) => (Raise e, log)
        | (Ok hull, log) =>
            (bbox <- _gen_bbox spatial ;;
             Ok (Some {| g_coordinates := coord_list;
                         g_hull := Some hull;
                         g_bbox := Some bbox |}),
             log)
        end
      else
        (Ok (Some {| g_coordinates := coord_list;
                     g_hull := None;
                     g_bbox := None |}),
         [])
  end.

End Hull.

Definition geojson_pyval (g : geojson) : pyval :=
  PDict [("geometries",
          PDict ([("coordinates", PList (map point_pyval (g_coordinates g)))]
                 ++ match g_hull g with
                    | Some hull => [("hull", geometry_pyval point_pyval hull)]
                    | None => []
                    end
                 ++ match g_bbox g with
                    | Some bbox => [("bbox", geometry_pyval corner_pyval bbox)]
                    | None => []
                    end))].

End Eufar.

(** The entry of the "geometries" dict of a spatial block under key [k]. *)
Definition geometries_item (block : pyval) (k : string) : option pyval :=
  match block with
  | PDict d =>
      match Json.getitem d "geometries" with
      | Some (PDict g) => Json.getitem g k
      | _ => None
      end
  | _ => None
  end.

(** The floats of the examples. *)
Definition fl (z : Z) : pyfloat := Py.of_Z z.

(** A [spatial] dict with the two channels. *)
Definition spatial_of (lats lons : list pyfloat) : gmap string chan :=
  <["lon" := Samples lons]> (<["lat" := Samples lats]> ∅).

(** Two corners are joined by a side of the box when they agree on the
    longitude or on the latitude. *)
Definition same_entry (a b : option pyfloat) : bool :=
  match a, b with
  | Some x, Some y => Py.eq x y
  | None, None => true
  | _, _ => false
  end.

Definition on_a_side (p q : corner) : bool :=
  same_entry (fst p) (fst q) || same_entry (snd p) (snd q).

(** A ring of four corners runs along the perimeter of the box when each
    corner and the next one (the first after the last) lie on a side; a
    ring that jumps to the opposite corner crosses itself. *)
Definition perimeter_ring (ring : list corner) : bool :=
  match ring with
  | [p0; p1; p2; p3] =>
      on_a_side p0 p1 && on_a_side p1 p2 && on_a_side p2 p3 && on_a_side p3 p0
  | _ => false
  end.

(** A point lies on the side from [p] to [q] of an axis-parallel box. *)
Definition on_side (p q r : point) : Prop :=
  (Py.eq (fst p) (fst q) = true /\ Py.eq (fst r) (fst p) = true /\
   ((Py.le (snd p) (snd r) = true /\ Py.le (snd r) (snd q) = true) \/
    (Py.le (snd q) (snd r) = true /\ Py.le (snd r) (snd p) = true)))
  \/
  (Py.eq (snd p) (snd q) = true /\ Py.eq (snd r) (snd p) = true /\
   ((Py.le (fst p) (fst r) = true /\ Py.le (fst r) (fst q) = true) \/
    (Py.le (fst q) (fst r) = true /\ Py.le (fst r) (fst p) = true))).

(** The range [-90 <= x <= 90] (resp. 180) of the data model. *)
Definition in_range (bound : Z) (x : pyfloat) : bool :=
  Py.le (Py.of_Z (- bound)) x && Py.le x (Py.of_Z bound).

(** The (lon, lat) tuples the eufar normalizer adds to its set. *)
Definition lon_lat_pairs (lats lons : list pyfloat) : list point :=
  map (fun ll => (snd ll, fst ll)) (zip lats lons).

(** No item of the list equals an earlier one. *)
Definition pairwise_distinct (l : list point) : Prop :=
  forall i j p q, i < j -> l !! i = Some p -> l !! j = Some q ->
                  Eufar.point_eq q p = false.

(** [coord_set] is [pts] without its duplicates: it holds points of [pts]
    only, every point of [pts] is in it or equals one of its points, and
    no two of its points are equal. *)
Definition deduplicated (pts coord_set : list point) : Prop :=
  (forall q, q ∈ coord_set -> q ∈ pts) /\
  (forall p, p ∈ pts ->
             p ∈ coord_set \/
             exists q, q ∈ coord_set /\ Eufar.point_eq p q = true) /\
  pairwise_distinct coord_set.

(** No line of qhull's output makes the conversion raise (each has its
    two fields, or a first field that is no number). *)
Definition lines_convert (float : string -> option pyfloat)
    (lines : list string) : bool :=
  forallb (fun line => negb (Py.raises (Eufar.convert float (Py.split_space line))))
          lines.

(** An output of qconvex for the unit square, and the conversion of its
    numerals, for the examples. *)
Definition qconvex_square (coord_list : list point) : list string :=
  ["2"; "4"; "0 0"; "0 1"; "1 1"; "1 0"].

Definition float_digit (s : string) : option pyfloat :=
  if String.eqb s "0" then Some (fl 0)
  else if String.eqb s "1" then Some (fl 1)
  else None.

(** No item of the list is a NaN. *)
Definition no_nan (l : list pyfloat) : Prop :=
  Forall (fun x => Py.is_nan x = false) l.

(** The items that survive the optional filter of the extent reducer. *)
Definition surviving (filter_func : option (pyfloat -> bool))
    (item_list : list pyfloat) : list pyfloat :=
  match filter_func with
  | Some f => List.filter f item_list
  | None => item_list
  end.

(* ===================================================================== *)
(** * The rest of the two files, and eufar/envi_geo.py                   *)
(* ===================================================================== *)

(** ** Python strings: [strip], [join], [unicode] *)

Module PyStr.

(** The whitespace of [str.strip()]: tab to carriage return, and space. *)
Definition str_space (c : ascii) : bool :=
  let n := nat_of_ascii c in
  ((9 <=? n)%nat && (n <=? 13)%nat) || (n =? 32)%nat.

(** The whitespace of [unicode.strip()] among the ASCII characters: the
    same, and the separators 0x1c to 0x1f. *)
Definition unicode_space (c : ascii) : bool :=
  let n := nat_of_ascii c in
  str_space c || ((28 <=? n)%nat && (n <=? 31)%nat).

Fixpoint lstrip (space : ascii -> bool) (s : string) : string :=
  match s with
  | EmptyString => EmptyString
  | String c s' => if space c then lstrip space s' else s
  end.

Fixpoint rstrip (space : ascii -> bool) (s : string) : string :=
  match s with
  | EmptyString => EmptyString
  | String c s' =>
      match rstrip space s' with
      | EmptyString => if space c then EmptyString else String c EmptyString
      | r => String c r
      end
  end.

(** [s.strip()] *)
Definition strip (space : ascii -> bool) (s : string) : string :=
  rstrip space (lstrip space s).

(** [sep.join(l)] *)
Fixpoint join (sep : string) (l : list string) : string :=
  match l with
  | [] => EmptyString
  | [x] => x
  | x :: l' => String.append x (String.append sep (join sep l'))
  end.

(** The first and the last character of a string. *)
Definition first_char (s : string) : option ascii :=
  match s with
  | EmptyString => None
  | String c _ => Some c
  end.

Fixpoint last_char (s : string) : option ascii :=
  match s with
  | EmptyString => None
  | String c EmptyString => Some c
  | String _ s' => last_char s'
  end.

Fixpoint is_ascii (s : string) : bool :=
  match s with
  | EmptyString => true
  | String c s' => (nat_of_ascii c <? 128)%nat && is_ascii s'
  end.

(** [unicode(value)] of a byte string: the ASCII codec decodes it, and
    raises UnicodeDecodeError, a [ValueError], on a byte above 127. *)
Definition unicode (value : string) : result string :=
  if is_ascii value then Ok value else Raise ValueError.

End PyStr.

(** ** class Parameter of ceda_di: the constructor

    [other_params] is the dict's list of items, in the order
    [iteritems()] yields them; None and the empty dict add nothing. *)

Module CedaParameter.

Fixpoint add_items (other_params : list (string * string))
    (items : list param_item) : result (list param_item) :=
  match other_params with
  | [] => Ok items
  | (key, value) :: rest =>
      let name := PyStr.strip PyStr.str_space key in
      value <- PyStr.unicode value ;;
      add_items rest
        (items ++ [make_param_item name (PyStr.strip PyStr.unicode_space value)])
  end.

Definition __init__ (name : string)
    (other_params : option (list (string * string))) : result ParameterObj :=
  match other_params with
  | None => Ok {| items := []; name := name |}
  | Some pairs =>
      items <- add_items pairs [] ;;
      Ok {| items := items; name := name |}
  end.

End CedaParameter.

(** ** [_to_wkt], the same in both classes *)

Module Wkt.

Section ToWkt.

(** ["%f" % x] *)
Variable format_f : pyfloat -> string.

(** ["%f %f" % (lat, lon)] *)
Definition entry (lat lon : pyfloat) : string :=
  String.append (format_f lat) (String.append " " (format_f lon)).

(** [coord_list.add(s)] on a set of strings, listed in the order of
    insertion. *)
Definition set_add (coord_list : list string) (s : string) : list string :=
  if existsb (String.eqb s) coord_list then coord_list
  else (coord_list ++ [s])%list.

Definition coord_list_of (lats lons : list pyfloat) : list string :=
  fold_left (fun coord_list ll => set_add coord_list (entry (fst ll) (snd ll)))
            (zip lats lons) [].

Definition _to_wkt (spatial : gmap string chan) : result string :=
  lats <- getitem spatial "lat" ;;
  lons <- getitem spatial "lon" ;;
  lats <- samples lats ;;
  lons <- samples lons ;;
  let coord_string := PyStr.join ", " (coord_list_of lats lons) in
  Ok (String.append "LINESTRING (" (String.append coord_string ")")).

End ToWkt.

End Wkt.

(** ** eufar/envi_geo.py: [ENVI.get_geospatial]

    [hdr] is the header dict of the file object and [data] the list
    [self.b.read()] returns; both come from the reader. *)

Module Envi.

(** [data[i]] *)
Definition index (data : list chan) (i : nat) : result chan :=
  match data !! i with
  | Some v => Ok v
  | None => Raise IndexError
  end.

Definition get_geospatial (hdr : gmap string chan) (data : list chan)
  : result (gmap string chan) :=
  lines <- getitem hdr "lines" ;;
  time <- index data 0 ;;
  lat <- index data 1 ;;
  lon <- index data 2 ;;
  alt <- index data 3 ;;
  roll <- index data 4 ;;
  pitch <- index data 5 ;;
  heading <- index data 6 ;;
  Ok (<["heading" := heading]> (<["pitch" := pitch]> (<["roll" := roll]>
     (<["alt" := alt]> (<["lon" := lon]> (<["lat" := lat]>
     (<["time" := time]> (<["lines" := lines]> ∅)))))))).

End Envi.

(** ** class Properties of eufar: the constructor and the exports

    A [Parameter] object is given by its attribute dict, [p.__dict__]. *)

Module EufarRecord.

(** The dict [self.properties]; it has no "_id". *)
Record properties_dict : Type := {
  d_data_format : option (gmap string pyval);
  d_file : option (gmap string pyval);
  d_misc : gmap string pyval;
  d_parameters : option (list (gmap string pyval));
  d_spatial : option Eufar.geojson;
  d_temporal : option (gmap string pyval)
}.

Record Properties : Type := {
  file_level : option (gmap string pyval);
  temporal : option (gmap string pyval);
  data_format : option (gmap string pyval);
  parameters : option (list (gmap string pyval));
  spatial : option Eufar.geojson;
  misc : gmap string pyval;
  properties : properties_dict
}.

Section Init.

Variable qconvex : list point -> list string.
Variable float : string -> option pyfloat.

(** The constructor reads the caller's spatial dict and does not write
    to it; the second component is the log of [_gen_hull]. *)
Definition __init__
    (file_level : option (gmap string pyval))
    (spatial : option (gmap string chan))
    (temporal data_format : option (gmap string pyval))
    (parameters : option (list (gmap string pyval)))
    (kwargs : gmap string pyval)
  : result Properties * list (list string) :=
  let '(spatial, log) :=
    match spatial with
    | None => (Ok None, [])
    | Some d => Eufar._to_geojson qconvex float d
    end in
  (spatial <- spatial ;;
   Ok {| file_level := file_level;
         temporal := temporal;
         data_format := data_format;
         parameters := parameters;
         spatial := spatial;
         misc := kwargs;
         properties :=
           {| d_data_format := data_format;
              d_file := file_level;
              d_misc := kwargs;
              d_parameters := parameters;
              d_spatial := spatial;
              d_temporal := temporal |} |},
   log).

End Init.

Definition properties_pyval (p : properties_dict) : pyval :=
  PDict [("data_format", Json.of_option info_pyval (d_data_format p));
         ("file", Json.of_option info_pyval (d_file p));
         ("misc", info_pyval (d_misc p));
         ("parameters",
          Json.of_option (fun ps => PList (map info_pyval ps)) (d_parameters p));
         ("spatial", Json.of_option Eufar.geojson_pyval (d_spatial p));
         ("temporal", Json.of_option info_pyval (d_temporal p))].

Definition as_dict (self : Properties) : properties_dict := properties self.

Section Dump.

Variable utf8_decode : string -> option (list nat).

Definition __str__ (self : Properties) : result json :=
  Json.dumps utf8_decode (properties_pyval (properties self)).

Definition as_json (self : Properties) : result json := __str__ self.

End Dump.

End EufarRecord.

(** ** Words for the statements below *)

(** The string neither starts nor ends with a whitespace character. *)
Definition trimmed (space : ascii -> bool) (s : string) : Prop :=
  (forall c, PyStr.first_char s = Some c -> space c = false) /\
  (forall c, PyStr.last_char s = Some c -> space c = false).

(** The hull vertices and the log records the lines of qhull stand for:
    a line gives a vertex when its first two fields convert, and a log
    record otherwise. *)
Definition line_vertex (float : string -> option pyfloat) (line : string)
  : option point :=
  match Eufar.convert float (Py.split_space line) with
  | Ok (Some p) => Some p
  | _ => None
  end.

Definition converted (float : string -> option pyfloat) (lines : list string)
  : list point :=
  omap (line_vertex float) lines.

Definition skipped (float : string -> option pyfloat) (lines : list string)
  : list (list string) :=
  map Py.split_space
      (List.filter (fun line => negb (bool_decide (is_Some (line_vertex float line))))
                   lines).

(** Seven channels of the reader, for the examples. *)
Definition seven_channels (lats lons : list pyfloat) : list chan :=
  [Samples [fl 1; fl 2]; Samples lats; Samples lons; Samples [fl 100; fl 110];
   Samples [fl 0; fl 0]; Samples [fl 1; fl 1]; Samples [fl 90; fl 91]].

(* ===================================================================== *)
(** * Facts about the comparison of floats                               *)
(* ===================================================================== *)

Section FloatOrder.

Lemma SFcompare_antisym (x y : spec_float) :
  SFcompare y x = option_map CompOpp (SFcompare x y).
Proof.
  destruct x as [sx|sx| |sx mx ex], y as [sy|sy| |sy my ey]; simpl;
    try destruct sx; try destruct sy; try reflexivity;
    rewrite (Z.compare_antisym ex ey);
    destruct (ex ?= ey)%Z; simpl; try reflexivity;
    change (Pos.compare_cont Eq my mx) with (my ?= mx)%positive;
    change (Pos.compare_cont Eq mx my) with (mx ?= my)%positive;
    rewrite (Pos.compare_antisym mx my);
    destruct (mx ?= my)%positive; reflexivity.
Qed.

(** Case analysis on every integer and mantissa comparison in sight. *)
Ltac sf_cases :=
  change (Pos.compare_cont Eq ?a ?b) with (a ?= b)%positive in *;
  repeat match goal with
    | H : context [(?a ?= ?b)%Z] |- _ => destruct (Z.compare_spec a b)
    | H : context [(?a ?= ?b)%positive] |- _ =>
        destruct (Pos.compare_spec a b)
    | |- context [(?a ?= ?b)%Z] => destruct (Z.compare_spec a b)
    | |- context [(?a ?= ?b)%positive] => destruct (Pos.compare_spec a b)
    end; simpl in *; try congruence; try lia.

Ltac sf_destruct x y :=
  destruct x as [[]|[]| |[] ? ?], y as [[]|[]| |[] ? ?]; simpl;
  try congruence.

Lemma le_trans (x y z : pyfloat) :
  Py.le x y = true -> Py.le y z = true -> Py.le x z = true.
Proof.
  unfold Py.le, SFleb.
  sf_destruct x y; destruct z as [[]|[]| |[] ? ?]; simpl; try congruence;
    intros; sf_cases.
Qed.

Lemma le_total (x y : pyfloat) :
  Py.is_nan x = false -> Py.is_nan y = false ->
  Py.le x y = true \/ Py.le y x = true.
Proof.
  unfold Py.le, SFleb. sf_destruct x y; intros; auto; sf_cases; auto.
Qed.

Lemma le_refl (x : pyfloat) : Py.is_nan x = false -> Py.le x x = true.
Proof. intros Hx. destruct (le_total x x Hx Hx); assumption. Qed.

Lemma lt_negb_le (x y : pyfloat) :
  Py.is_nan x = false -> Py.is_nan y = false ->
  Py.lt x y = negb (Py.le y x).
Proof.
  unfold Py.le, Py.lt, SFleb, SFltb. rewrite (SFcompare_antisym x y).
  sf_destruct x y; intros; auto; sf_cases; auto.
Qed.

Lemma lt_le (x y : pyfloat) : Py.lt x y = true -> Py.le x y = true.
Proof.
  unfold Py.le, Py.lt, SFleb, SFltb.
  destruct (SFcompare x y) as [[]|]; congruence.
Qed.

Lemma eq_le (x y : pyfloat) : Py.eq x y = true -> Py.le x y = true.
Proof.
  unfold Py.le, Py.eq, SFleb, SFeqb.
  destruct (SFcompare x y) as [[]|]; congruence.
Qed.

Lemma eq_sym (x y : pyfloat) : Py.eq x y = Py.eq y x.
Proof.
  unfold Py.eq, SFeqb. rewrite (SFcompare_antisym x y).
  destruct (SFcompare x y) as [[]|]; reflexivity.
Qed.

Lemma le_antisym (x y : pyfloat) :
  Py.le x y = true -> Py.le y x = true -> Py.eq x y = true.
Proof.
  unfold Py.le, Py.eq, SFleb, SFeqb. rewrite (SFcompare_antisym x y).
  destruct (SFcompare x y) as [[]|]; simpl; congruence.
Qed.

Lemma le_not_nan (x y : pyfloat) :
  Py.le x y = true -> Py.is_nan x = false /\ Py.is_nan y = false.
Proof. unfold Py.le, SFleb. sf_destruct x y; auto. Qed.

(** A NaN is neither below nor above anything. *)
Lemma lt_nan_l (x : pyfloat) : Py.lt Py.nan x = false.
Proof. reflexivity. Qed.

Lemma lt_nan_r (x : pyfloat) : Py.lt x Py.nan = false.
Proof. destruct x; reflexivity. Qed.

End FloatOrder.

(* ===================================================================== *)
(** * max and min of a list                                              *)
(* ===================================================================== *)

Section MaxMin.

(** The running maximum is an item seen so far and bounds all of them. *)
Lemma max_from_spec (l : list pyfloat) : forall m,
  no_nan (m :: l) ->
  Py.max_from m l ∈ m :: l /\
  (forall x, x ∈ m :: l -> Py.le x (Py.max_from m l) = true).
Proof.
  induction l as [|i l IH]; intros m Hn; simpl.
  - split; [left|]. intros x Hx. apply list_elem_of_singleton in Hx as ->.
    apply le_refl. now inversion Hn.
  - inversion Hn as [|? ? Hm Hl]; subst. inversion Hl as [|? ? Hi Hl']; subst.
    change (Py.gt i m) with (Py.lt m i). rewrite (lt_negb_le m i Hm Hi).
    destruct (Py.le i m) eqn:Him; simpl.
    + destruct (IH m) as [Hin Hub]; [now constructor|]. split.
      * apply elem_of_cons in Hin as [->|Hin]; [left|do 2 right; exact Hin].
      * intros x Hx. apply elem_of_cons in Hx as [->|Hx];
          [apply Hub; left|].
        apply elem_of_cons in Hx as [->|Hx];
          [apply (le_trans _ m); [exact Him|apply Hub; left]|].
        apply Hub. now right.
    + destruct (IH i) as [Hin Hub]; [now constructor|]. split.
      * right. exact Hin.
      * intros x Hx. apply elem_of_cons in Hx as [->|Hx].
        -- apply (le_trans _ i); [|apply Hub; left].
           destruct (le_total m i Hm Hi) as [H|H]; congruence.
        -- apply Hub. exact Hx.
Qed.

Lemma min_from_spec (l : list pyfloat) : forall m,
  no_nan (m :: l) ->
  Py.min_from m l ∈ m :: l /\
  (forall x, x ∈ m :: l -> Py.le (Py.min_from m l) x = true).
Proof.
  induction l as [|i l IH]; intros m Hn; simpl.
  - split; [left|]. intros x Hx. apply list_elem_of_singleton in Hx as ->.
    apply le_refl. now inversion Hn.
  - inversion Hn as [|? ? Hm Hl]; subst. inversion Hl as [|? ? Hi Hl']; subst.
    rewrite (lt_negb_le i m Hi Hm).
    destruct (Py.le m i) eqn:Hmi; simpl.
    + destruct (IH m) as [Hin Hlb]; [now constructor|]. split.
      * apply elem_of_cons in Hin as [->|Hin]; [left|do 2 right; exact Hin].
      * intros x Hx. apply elem_of_cons in Hx as [->|Hx];
          [apply Hlb; left|].
        apply elem_of_cons in Hx as [->|Hx];
          [apply (le_trans _ m); [apply Hlb; left|exact Hmi]|].
        apply Hlb. now right.
    + destruct (IH i) as [Hin Hlb]; [now constructor|]. split.
      * right. exact Hin.
      * intros x Hx. apply elem_of_cons in Hx as [->|Hx].
        -- apply (le_trans _ i); [apply Hlb; left|].
           destruct (le_total m i Hm Hi) as [H|H]; congruence.
        -- apply Hlb. exact Hx.
Qed.

(** With a NaN in front, [max] and [min] return the NaN. *)
Lemma max_from_nan (l : list pyfloat) : Py.max_from Py.nan l = Py.nan.
Proof.
  induction l as [|i l IH]; simpl; [reflexivity|].
  exact IH.
Qed.

Lemma min_from_nan (l : list pyfloat) : Py.min_from Py.nan l = Py.nan.
Proof.
  induction l as [|i l IH]; simpl; [reflexivity|].
  rewrite lt_nan_r. exact IH.
Qed.

End MaxMin.

Section Validator.

(** Away from NaN the validators are the range tests of the data model. *)
Lemma valid_lat_in_range (x : pyfloat) :
  Py.is_nan x = false -> CedaDi.valid_lat x = in_range 90 x.
Proof.
  intros Hx. unfold CedaDi.valid_lat, in_range, Py.gt.
  change (Z.opp 90) with (-90)%Z.
  change (SFltb (Py.of_Z 90) x) with (Py.lt (Py.of_Z 90) x).
  rewrite (lt_negb_le x (Py.of_Z (-90)) Hx eq_refl).
  rewrite (lt_negb_le (Py.of_Z 90) x eq_refl Hx).
  destruct (Py.le (Py.of_Z (-90)) x), (Py.le x (Py.of_Z 90)); reflexivity.
Qed.

Lemma valid_lon_in_range (x : pyfloat) :
  Py.is_nan x = false -> CedaDi.valid_lon x = in_range 180 x.
Proof.
  intros Hx. unfold CedaDi.valid_lon, in_range, Py.gt.
  change (Z.opp 180) with (-180)%Z.
  change (SFltb (Py.of_Z 180) x) with (Py.lt (Py.of_Z 180) x).
  rewrite (lt_negb_le x (Py.of_Z (-180)) Hx eq_refl).
  rewrite (lt_negb_le (Py.of_Z 180) x eq_refl Hx).
  destruct (Py.le (Py.of_Z (-180)) x), (Py.le x (Py.of_Z 180)); reflexivity.
Qed.

(** A value inside the range is no NaN. *)
Lemma in_range_not_nan (b : Z) (x : pyfloat) :
  in_range b x = true -> Py.is_nan x = false.
Proof.
  unfold in_range. intros H. apply andb_prop in H as [_ H].
  exact (proj1 (le_not_nan _ _ H)).
Qed.

(** C3. The validators do not classify NaN as invalid: both comparisons
    of [num < -90 or num > 90] are false on a NaN, so [valid_lat] and
    [valid_lon] return True for it, although NaN is outside the ranges
    [-90 <= x <= 90] and [-180 <= x <= 180]. *)
Theorem validators_accept_nan :
  CedaDi.valid_lat Py.nan = true /\ in_range 90 Py.nan = false /\
  CedaDi.valid_lon Py.nan = true /\ in_range 180 Py.nan = false.
Proof. repeat split; reflexivity. Qed.

End Validator.

Section Extent.

Lemma ceda_get_min_max_empty (filter_func : option (pyfloat -> bool)) :
  CedaDi._get_min_max [] filter_func = Ok (None, None).
Proof. reflexivity. Qed.

Lemma ceda_get_min_max_kept (l : list pyfloat)
    (filter_func : option (pyfloat -> bool)) (x : pyfloat)
    (kept : list pyfloat) :
  l <> [] -> surviving filter_func l = x :: kept ->
  CedaDi._get_min_max l filter_func
  = Ok (Some (Py.min_from x kept), Some (Py.max_from x kept)).
Proof.
  intros Hl Hk. unfold CedaDi._get_min_max.
  destruct l as [|y l]; [congruence|]. simpl length. simpl Nat.ltb.
  cbv iota. fold (surviving filter_func (y :: l)). rewrite Hk. reflexivity.
Qed.

(** The reducer raises exactly on a non-empty list the filter empties:
    the emptiness test comes before the filter. *)
Lemma ceda_get_min_max_raises (l : list pyfloat)
    (filter_func : option (pyfloat -> bool)) :
  Py.raises (CedaDi._get_min_max l filter_func) = true
  <-> l <> [] /\ surviving filter_func l = [].
Proof.
  destruct l as [|y l]; [simpl; split; [discriminate|intros [H _]; congruence]|].
  destruct (surviving filter_func (y :: l)) as [|x kept] eqn:Hk.
  - split; [intros _; split; [discriminate|reflexivity]|intros _].
    unfold CedaDi._get_min_max. simpl length. simpl Nat.ltb. cbv iota.
    fold (surviving filter_func (y :: l)). rewrite Hk. reflexivity.
  - rewrite (ceda_get_min_max_kept _ _ x kept); [|discriminate|exact Hk].
    simpl. split; [discriminate|intros [_ H]; discriminate].
Qed.

(** On NaN-free items the ceda_di reducer returns the least and the
    greatest surviving item, the low one first. *)
Lemma ceda_extent_low_high (l : list pyfloat)
    (filter_func : option (pyfloat -> bool)) :
  no_nan l -> surviving filter_func l <> [] ->
  exists lo hi,
    CedaDi._get_min_max l filter_func = Ok (Some lo, Some hi) /\
    lo ∈ surviving filter_func l /\ hi ∈ surviving filter_func l /\
    (forall x, x ∈ surviving filter_func l ->
               Py.le lo x = true /\ Py.le x hi = true).
Proof.
  intros Hn Hs.
  assert (Hl : l <> []).
  { intros ->. destruct filter_func; simpl in Hs; congruence. }
  destruct (surviving filter_func l) as [|x kept] eqn:Hk; [congruence|].
  assert (Hnk : no_nan (x :: kept)).
  { rewrite <- Hk. destruct filter_func as [g|]; simpl; [|exact Hn].
    unfold no_nan in *. rewrite Forall_forall in *. intros y Hy.
    apply Hn. apply list_elem_of_In. apply list_elem_of_In in Hy.
    apply filter_In in Hy. tauto. }
  destruct (max_from_spec kept x Hnk) as [Hmax Hub].
  destruct (min_from_spec kept x Hnk) as [Hmin Hlb].
  exists (Py.min_from x kept), (Py.max_from x kept).
  split; [exact (ceda_get_min_max_kept l filter_func x kept Hl Hk)|].
  split; [exact Hmin|]. split; [exact Hmax|].
  intros y Hy. split; [apply Hlb|apply Hub]; exact Hy.
Qed.

(** The eufar reducer has no filter and never raises. *)
Lemma eufar_get_min_max_total (l : list pyfloat) :
  Py.raises (Eufar._get_min_max l) = false.
Proof. destruct l; reflexivity. Qed.

(** It returns the greatest item first. *)
Lemma eufar_extent_high_low (l : list pyfloat) :
  no_nan l -> l <> [] ->
  exists lo hi,
    Eufar._get_min_max l = Ok (Some hi, Some lo) /\
    lo ∈ l /\ hi ∈ l /\
    (forall x, x ∈ l -> Py.le lo x = true /\ Py.le x hi = true).
Proof.
  intros Hn Hl. destruct l as [|x l]; [congruence|].
  destruct (max_from_spec l x Hn) as [Hmax Hub].
  destruct (min_from_spec l x Hn) as [Hmin Hlb].
  exists (Py.min_from x l), (Py.max_from x l).
  split; [reflexivity|]. split; [exact Hmin|]. split; [exact Hmax|].
  intros y Hy. split; [apply Hlb|apply Hub]; exact Hy.
Qed.

(** C1. The ceda_di reducer tests [len(item_list) < 1] before it filters:
    on the non-empty list [[200.0]], all of whose items [valid_lat]
    rejects, nothing survives and [max] of the empty list raises
    ValueError instead of the reducer returning (None, None). *)
Theorem extent_raises_when_filter_rejects_all :
  surviving (Some CedaDi.valid_lat) [fl 200] = [] /\
  CedaDi._get_min_max [fl 200] (Some CedaDi.valid_lat) = Raise ValueError.
Proof. split; reflexivity. Qed.

(** C6. The eufar reducer returns the high value first: on [[3, -1, 7]] it
    returns (7, -1) where the ceda_di reducer returns (-1, 7); eufar's
    [_gen_bbox] nevertheless unpacks the pair as (lo, hi), so its first
    corner holds the two maxima. *)
Theorem eufar_extent_is_high_first :
  Eufar._get_min_max [fl 3; fl (-1); fl 7] = Ok (Some (fl 7), Some (fl (-1))) /\
  CedaDi._get_min_max [fl 3; fl (-1); fl 7] (Some CedaDi.valid_lat)
  = Ok (Some (fl (-1)), Some (fl 7)) /\
  (exists ring,
      Eufar._gen_bbox (spatial_of [fl 3; fl (-1); fl 7] [fl 3; fl (-1); fl 7])
      = Ok (Geometry "MultiPoint" ring) /\
      head ring = Some (Some (fl 7), Some (fl 7))).
Proof.
  split; [reflexivity|]. split; [reflexivity|].
  eexists. split; [vm_compute; reflexivity|reflexivity].
Qed.

End Extent.

(* ===================================================================== *)
(** * Coordinate summarizer                                              *)
(* ===================================================================== *)

Section Summary.

Context {A : Type}.

(** [l[::step]] has ceil(len(l) / step) items. *)
Lemma every_length (step : nat) (l : list A) : forall skip,
  skip < step ->
  length l <= step * length (Py.every step skip l) + skip /\
  step * length (Py.every step skip l) + skip < length l + step.
Proof.
  induction l as [|x l IH]; intros skip Hs; simpl.
  - lia.
  - destruct skip as [|k]; simpl.
    + destruct (IH (step - 1)) as [H1 H2]; [lia|]. nia.
    + destruct (IH k) as [H1 H2]; [lia|]. lia.
Qed.



End Summary.

Lemma every_zip {A B : Type} (step : nat) (l : list A) : forall (k : list B) skip,
  zip (Py.every step skip l) (Py.every step skip k)
  = Py.every step skip (zip l k).
Proof.
  induction l as [|x l IH]; intros k skip; simpl.
  - reflexivity.
  - destruct k as [|y k]; simpl.
    + destruct skip as [|skip]; simpl;
        [destruct (Py.every step (step - 1) l)|destruct (Py.every step skip l)];
        reflexivity.
    + destruct skip; simpl; [f_equal|]; apply IH.
Qed.

Lemma ceil_div_30 (n : nat) :
  n <= 30 * Py.ceil_div n 30 /\ (0 < n -> 1 <= Py.ceil_div n 30).
Proof.
  unfold Py.ceil_div. simpl Nat.sub.
  pose proof (Nat.div_mod_eq (n + 29) 30) as H.
  pose proof (Nat.mod_upper_bound (n + 29) 30) as H'.
  lia.
Qed.




(* ===================================================================== *)
(** * Spatial normalizer: the empty cases                                *)
(* ===================================================================== *)

Section NormalizerEmpty.

Lemma ceda_to_geojson_no_lats (d : gmap string chan) (v : chan) :
  d !! "lat" = Some (Samples []) -> d !! "lon" = Some v ->
  CedaDi._to_geojson d = Ok None.
Proof.
  intros Hlat Hlon. unfold CedaDi._to_geojson, getitem.
  rewrite Hlat, Hlon. reflexivity.
Qed.

Lemma ceda_to_geojson_no_lons (d : gmap string chan) (lats : list pyfloat) :
  d !! "lat" = Some (Samples lats) -> d !! "lon" = Some (Samples []) ->
  CedaDi._to_geojson d = Ok None.
Proof.
  intros Hlat Hlon. unfold CedaDi._to_geojson, getitem.
  rewrite Hlat, Hlon. simpl. destruct (0 <? length lats)%nat; reflexivity.
Qed.

Lemma eufar_to_geojson_empty (qconvex : list point -> list string)
    (float : string -> option pyfloat)
    (d : gmap string chan) (lats lons : list pyfloat) :
  d !! "lat" = Some (Samples lats) -> d !! "lon" = Some (Samples lons) ->
  lats = [] \/ lons = [] ->
  Eufar._to_geojson qconvex float d = (Ok None, []).
Proof.
  intros Hlat Hlon He. unfold Eufar._to_geojson, getitem.
  rewrite Hlat, Hlon. simpl.
  destruct He as [->| ->]; simpl; [reflexivity|].
  destruct (0 <? length lats)%nat; reflexivity.
Qed.

(** Lines 45 and 46 of the constructor rewrite the dict at [r]; line 47
    normalizes the rewritten dict. *)
Lemma init_spatial_filters (r : positive)
    (h : gmap positive (gmap string chan)) (d : gmap string chan)
    (lats lons : list pyfloat) :
  h !! r = Some d ->
  d !! "lat" = Some (Samples lats) ->
  d !! "lon" = Some (Samples lons) ->
  let d' := <["lon" := Samples (List.filter CedaDi.valid_lon lons)]>
              (<["lat" := Samples (List.filter CedaDi.valid_lat lats)]> d) in
  CedaDi.init_spatial (Some r) h = (CedaDi._to_geojson d', <[r := d']> h).
Proof.
  intros Hr Hlat Hlon d'. unfold CedaDi.init_spatial, CedaDi.filter_item.
  rewrite Hr. simpl. unfold getitem at 1. rewrite Hlat. simpl.
  rewrite lookup_insert_eq. simpl. unfold getitem at 1.
  rewrite lookup_insert_ne by discriminate. rewrite Hlon. simpl.
  rewrite insert_insert_eq, lookup_insert_eq. reflexivity.
Qed.

(** C8 (amended). When the validity filter of the constructor leaves no
    latitude or no longitude (in particular for empty lats and lons) the
    spatial block is None and nothing is raised; and [_to_geojson]
    itself, in both classes, returns None when one of the two sequences
    it is handed is empty. *)
Theorem normalizer_null_on_empty_channel (r : positive)
    (h : gmap positive (gmap string chan)) (d : gmap string chan)
    (lats lons : list pyfloat) :
  h !! r = Some d ->
  d !! "lat" = Some (Samples lats) ->
  d !! "lon" = Some (Samples lons) ->
  (List.filter CedaDi.valid_lat lats = [] \/
   List.filter CedaDi.valid_lon lons = [] ->
   fst (CedaDi.init_spatial (Some r) h) = Ok None) /\
  (lats = [] \/ lons = [] ->
   CedaDi._to_geojson d = Ok None /\
   forall qconvex float, Eufar._to_geojson qconvex float d = (Ok None, [])).
Proof.
  intros Hr Hlat Hlon. split.
  - intros He. rewrite (init_spatial_filters r h d lats lons Hr Hlat Hlon).
    simpl. destruct He as [He|He]; rewrite He.
    + eapply ceda_to_geojson_no_lats.
      * rewrite lookup_insert_ne by discriminate. apply lookup_insert_eq.
      * apply lookup_insert_eq.
    + eapply ceda_to_geojson_no_lons.
      * rewrite lookup_insert_ne by discriminate. apply lookup_insert_eq.
      * apply lookup_insert_eq.
  - intros He. split.
    + destruct He as [->| ->].
      * eapply ceda_to_geojson_no_lats; eassumption.
      * eapply ceda_to_geojson_no_lons; eassumption.
    + intros qconvex float.
      exact (eufar_to_geojson_empty qconvex float d lats lons Hlat Hlon He).
Qed.

Lemma normalizer_null_on_empty_channel_witness :
  (List.filter CedaDi.valid_lat [fl 200; fl (-91)] = [] \/
   List.filter CedaDi.valid_lon [fl 10; fl 20] = [] ->
   fst (CedaDi.init_spatial (Some 1%positive)
          {[1%positive := spatial_of [fl 200; fl (-91)] [fl 10; fl 20]]})
   = Ok None) /\
  ([fl 200; fl (-91)] = [] \/ [fl 10; fl 20] = [] ->
   CedaDi._to_geojson (spatial_of [fl 200; fl (-91)] [fl 10; fl 20])
   = Ok None /\
   forall qconvex float,
     Eufar._to_geojson qconvex float
       (spatial_of [fl 200; fl (-91)] [fl 10; fl 20]) = (Ok None, [])).
Proof.
  apply (normalizer_null_on_empty_channel 1%positive
           {[1%positive := spatial_of [fl 200; fl (-91)] [fl 10; fl 20]]}
           (spatial_of [fl 200; fl (-91)] [fl 10; fl 20])
           [fl 200; fl (-91)] [fl 10; fl 20]);
    reflexivity.
Defined.

(** The constructor filters the two channels one by one: from lats
    [10, 200] and lons [200, 10], where no sample has both a valid
    latitude and a valid longitude, it keeps latitude 10 and longitude 10
    and emits a block.  Handed the unfiltered invalid sample (200, 200),
    [_to_geojson] raises. *)
Lemma normalizer_block_without_valid_pair :
  forallb (fun ll => negb (CedaDi.valid_lat (fst ll) && CedaDi.valid_lon (snd ll)))
          (zip [fl 10; fl 200] [fl 200; fl 10]) = true /\
  (exists g,
      fst (CedaDi.init_spatial (Some 1%positive)
             {[1%positive := spatial_of [fl 10; fl 200] [fl 200; fl 10]]})
      = Ok (Some g)) /\
  CedaDi._to_geojson (spatial_of [fl 200] [fl 200]) = Raise ValueError.
Proof.
  split; [reflexivity|]. split; [|reflexivity].
  eexists. vm_compute. reflexivity.
Qed.

End NormalizerEmpty.

(* ===================================================================== *)
(** * Construction of a metadata record                                  *)
(* ===================================================================== *)

Section Construction.

Variable sha1_hexdigest : string -> string.

(** With filesystem information that holds a path, and a spatial step
    that does not raise, construction succeeds and the identifier is the
    hash of the path. *)
Lemma init_identifier (fs : gmap string pyval) (path : string)
    (spatial : option positive) (temporal data_format : option (gmap string pyval))
    (parameters : option (list ParameterObj)) (kwargs : gmap string pyval)
    (h : gmap positive (gmap string chan)) (sp : option CedaDi.geojson) :
  fs !! "path" = Some (PStr path) ->
  fst (CedaDi.init_spatial spatial h) = Ok sp ->
  exists self,
    fst (CedaDi.__init__ sha1_hexdigest (Some fs) spatial temporal
           data_format parameters kwargs h) = Ok self /\
    CedaDi.d_id (CedaDi.as_dict self) = sha1_hexdigest path /\
    CedaDi.d_file (CedaDi.as_dict self) = Some fs /\
    CedaDi.d_spatial (CedaDi.as_dict self) = sp.
Proof.
  intros Hp Hs. unfold CedaDi.__init__.
  destruct (CedaDi.init_spatial spatial h) as [res h']. simpl in Hs. subst res.
  simpl. rewrite Hp. simpl. eexists. split; [reflexivity|]. repeat split.
Qed.

(** C4. Construction fails when the filesystem group is absent: the
    identifier is computed as [hashlib.sha1(self.filesystem["path"])]
    whatever [filesystem] is, and subscripting None raises.  In
    particular [Properties()] raises TypeError. *)
Theorem init_without_filesystem_raises
    (spatial : option positive) (temporal data_format : option (gmap string pyval))
    (parameters : option (list ParameterObj)) (kwargs : gmap string pyval)
    (h : gmap positive (gmap string chan)) :
  Py.raises (fst (CedaDi.__init__ sha1_hexdigest None spatial temporal
                    data_format parameters kwargs h)) = true /\
  fst (CedaDi.__init__ sha1_hexdigest None None None None None ∅ h)
  = Raise TypeError.
Proof.
  split; [|reflexivity]. unfold CedaDi.__init__.
  destruct (CedaDi.init_spatial spatial h) as [[sp|e] h']; reflexivity.
Qed.

End Construction.

(** That construction succeeds, and leaves latitude 10 only. *)
Example init_example :
  exists self,
    CedaDi.__init__ (fun s => s) (Some {["path" := PStr "a.nc"]})
      (Some 7%positive) None None None ∅
      {[7%positive := spatial_of [fl 10; fl 200] [fl 20; fl 30]]}
    = (Ok self,
       {[7%positive := spatial_of [fl 10] [fl 20; fl 30]]}) /\
    CedaDi.d_id (CedaDi.as_dict self) = "a.nc".
Proof. eexists. split; vm_compute; reflexivity. Qed.

(* ===================================================================== *)
(** * Deduplication of the coordinate pairs (eufar)                      *)
(* ===================================================================== *)

Section CoordSet.

Lemma set_add_elem (acc : list point) (p q : point) :
  q ∈ Eufar.set_add acc p <-> q ∈ acc \/ (q = p /\ existsb (Eufar.point_eq p) acc = false).
Proof.
  unfold Eufar.set_add. destruct (existsb (Eufar.point_eq p) acc) eqn:He.
  - split; [auto|intros [H|[_ H]]; [exact H|discriminate]].
  - rewrite elem_of_app, list_elem_of_singleton. tauto.
Qed.

Lemma set_add_covers (acc : list point) (p : point) :
  p ∈ Eufar.set_add acc p \/
  exists q, q ∈ Eufar.set_add acc p /\ Eufar.point_eq p q = true.
Proof.
  destruct (existsb (Eufar.point_eq p) acc) eqn:He.
  - right. apply existsb_exists in He as (q & Hq & Hpq).
    exists q. split; [|exact Hpq].
    apply set_add_elem. left. now apply list_elem_of_In.
  - left. apply set_add_elem. right. split; [reflexivity|exact He].
Qed.

Lemma set_add_distinct (acc : list point) (p : point) :
  pairwise_distinct acc -> pairwise_distinct (Eufar.set_add acc p).
Proof.
  intros Hd. unfold Eufar.set_add.
  destruct (existsb (Eufar.point_eq p) acc) eqn:He; [exact Hd|].
  intros i j a b Hij Hi Hj.
  assert (Hlt : j < length (acc ++ [p])) by (eapply lookup_lt_Some; eauto).
  rewrite length_app in Hlt. simpl in Hlt.
  destruct (decide (j < length acc)) as [Hj'|Hj'].
  - rewrite lookup_app_l in Hi by lia. rewrite lookup_app_l in Hj by lia.
    exact (Hd i j a b Hij Hi Hj).
  - assert (j = length acc) as -> by lia.
    rewrite lookup_app_l in Hi by lia.
    rewrite list_lookup_middle in Hj by reflexivity. injection Hj as <-.
    destruct (Eufar.point_eq p a) eqn:Hpa; [|reflexivity].
    assert (existsb (Eufar.point_eq p) acc = true); [|congruence].
    apply existsb_exists. exists a. split; [|exact Hpa].
    apply list_elem_of_In. eapply list_elem_of_lookup_2. exact Hi.
Qed.

(** The loop of [_to_geojson], from any set built so far. *)
Lemma coord_set_loop (zs : list (pyfloat * pyfloat)) : forall acc,
  pairwise_distinct acc ->
  let cs := fold_left (fun coord_set ll => Eufar.set_add coord_set (snd ll, fst ll))
                      zs acc in
  (forall q, q ∈ cs -> q ∈ acc \/ q ∈ map (fun ll => (snd ll, fst ll)) zs) /\
  (forall q, q ∈ acc -> q ∈ cs) /\
  (forall p, p ∈ map (fun ll => (snd ll, fst ll)) zs ->
             p ∈ cs \/ exists q, q ∈ cs /\ Eufar.point_eq p q = true) /\
  pairwise_distinct cs.
Proof.
  induction zs as [|z zs IH]; intros acc Hd; simpl.
  - repeat split; auto. intros p Hp. inversion Hp.
  - destruct (IH (Eufar.set_add acc (snd z, fst z)) (set_add_distinct _ _ Hd))
      as (H1 & H2 & H3 & H4).
    repeat split.
    + intros q Hq. destruct (H1 q Hq) as [Hq'|Hq'].
      * apply set_add_elem in Hq' as [Hq'|[-> _]]; [left; exact Hq'|].
        right. left.
      * right. right. exact Hq'.
    + intros q Hq. apply H2. apply set_add_elem. left. exact Hq.
    + intros p Hp. apply elem_of_cons in Hp as [->|Hp]; [|exact (H3 p Hp)].
      destruct (set_add_covers acc (snd z, fst z)) as [Hin|(q & Hq & Hpq)].
      * left. apply H2. exact Hin.
      * right. exists q. split; [apply H2; exact Hq|exact Hpq].
    + exact H4.
Qed.

(** The coordinate set of the eufar normalizer is the list of the
    (lon, lat) pairs without its duplicates. *)
Lemma coord_set_deduplicated (lats lons : list pyfloat) :
  deduplicated (lon_lat_pairs lats lons) (Eufar.coord_set_of lats lons).
Proof.
  unfold deduplicated, lon_lat_pairs, Eufar.coord_set_of.
  destruct (coord_set_loop (zip lats lons) []) as (H1 & _ & H3 & H4).
  - intros i j p q _ Hi. discriminate Hi.
  - split; [|split; [exact H3|exact H4]].
    intros q Hq. destruct (H1 q Hq) as [H|H]; [inversion H|exact H].
Qed.

End CoordSet.

(* ===================================================================== *)
(** * Spatial normalizer: the emitted block                              *)
(* ===================================================================== *)

Section Normalizer.

Variable qconvex : list point -> list string.
Variable float : string -> option pyfloat.

(** When no line raises, the loop ends normally and every line gave a
    hull vertex or a log record. *)
Lemma hull_loop_ok (lines : list string) : forall hull_coords log,
  lines_convert float lines = true ->
  exists hull_coords' log',
    Eufar.hull_loop float lines hull_coords log = (Ok hull_coords', log') /\
    length hull_coords' + length log'
    = length hull_coords + length log + length lines.
Proof.
  induction lines as [|line lines IH]; intros hc log Hl; simpl.
  - exists hc, log. split; [reflexivity|lia].
  - simpl in Hl. apply andb_prop in Hl as [Hline Hl].
    destruct (Eufar.convert float (Py.split_space line)) as [[p|]|e];
      [| |discriminate].
    + destruct (IH (hc ++ [p])%list log Hl) as (hc' & log' & -> & Hlen).
      exists hc', log'. split; [reflexivity|].
      rewrite length_app in Hlen. simpl in Hlen. lia.
    + destruct (IH hc (log ++ [Py.split_space line])%list Hl)
        as (hc' & log' & -> & Hlen).
      exists hc', log'. split; [reflexivity|].
      rewrite length_app in Hlen. simpl in Hlen. lia.
Qed.

Lemma gen_hull_ok (coord_list : list point) :
  lines_convert float (drop 2 (qconvex coord_list)) = true ->
  exists hull_coords log,
    Eufar._gen_hull qconvex float coord_list
    = (Ok (Geometry "Polygon" hull_coords), log) /\
    length hull_coords + length log = length (drop 2 (qconvex coord_list)).
Proof.
  intros Hl. unfold Eufar._gen_hull.
  destruct (hull_loop_ok _ [] [] Hl) as (hc & log & -> & Hlen).
  exists hc, log. split; [reflexivity|exact Hlen].
Qed.

(** The eufar box of non-empty channels: the reducer returns (max, min)
    and the box lists (max, max), (max, min), (min, max), (min, min). *)
Lemma eufar_gen_bbox_ring (d : gmap string chan) (x y : pyfloat)
    (lats lons : list pyfloat) :
  d !! "lat" = Some (Samples (y :: lats)) ->
  d !! "lon" = Some (Samples (x :: lons)) ->
  Eufar._gen_bbox d
  = Ok (Geometry "MultiPoint"
          [(Some (Py.max_from x lons), Some (Py.max_from y lats));
           (Some (Py.max_from x lons), Some (Py.min_from y lats));
           (Some (Py.min_from x lons), Some (Py.max_from y lats));
           (Some (Py.min_from x lons), Some (Py.min_from y lats))]).
Proof.
  intros Hlat Hlon. unfold Eufar._gen_bbox, getitem.
  rewrite Hlat, Hlon. reflexivity.
Qed.

End Normalizer.

(** On those four points the eufar block has its hull of 4 vertices and
    its box; the ceda_di block has no coordinate set and no hull, and on
    a single point it still has a box. *)
Lemma ceda_block_has_no_coordinate_set :
  (exists g hull,
      Eufar._to_geojson qconvex_square float_digit
        (spatial_of [fl 0; fl 0; fl 1; fl 1] [fl 0; fl 1; fl 0; fl 1])
      = (Ok (Some g), []) /\
      length (Eufar.g_coordinates g) = 4 /\
      Eufar.g_hull g = Some hull /\ length (coordinates hull) = 4) /\
  (exists g,
      CedaDi._to_geojson
        (spatial_of [fl 0; fl 0; fl 1; fl 1] [fl 0; fl 1; fl 0; fl 1])
      = Ok (Some g) /\
      geometries_item (CedaDi.geojson_pyval g) "coordinates" = None /\
      geometries_item (CedaDi.geojson_pyval g) "hull" = None) /\
  (exists g,
      CedaDi._to_geojson (spatial_of [fl 0] [fl 0]) = Ok (Some g) /\
      is_Some (geometries_item (CedaDi.geojson_pyval g) "bbox")).
Proof.
  split; [|split].
  - eexists _, _. split; [vm_compute; reflexivity|]. repeat split.
  - eexists. split; [vm_compute; reflexivity|]. split; reflexivity.
  - eexists. split; [vm_compute; reflexivity|]. simpl. eauto.
Qed.

(* ===================================================================== *)
(** * Bounding box                                                       *)
(* ===================================================================== *)

Section BoundingBox.

Lemma eq_refl_float (x : pyfloat) : Py.is_nan x = false -> Py.eq x x = true.
Proof. intros Hx. apply le_antisym; apply le_refl; exact Hx. Qed.

Lemma lt_not_eq (x y : pyfloat) : Py.lt x y = true -> Py.eq x y = false.
Proof.
  unfold Py.lt, Py.eq, SFltb, SFeqb.
  destruct (SFcompare x y) as [[]|]; congruence.
Qed.

Lemma eq_common (r a b : pyfloat) :
  Py.eq r a = true -> Py.eq r b = true -> Py.eq a b = true.
Proof.
  intros Ha Hb. apply le_antisym.
  - apply (le_trans _ r); [rewrite eq_sym in Ha|]; now apply eq_le.
  - apply (le_trans _ r); [rewrite eq_sym in Hb|]; now apply eq_le.
Qed.

(** In the order SW, NW, NE, SE the ring runs along the perimeter. *)
Lemma perimeter_order (a b c d : pyfloat) :
  Py.is_nan a = false -> Py.is_nan b = false ->
  Py.is_nan c = false -> Py.is_nan d = false ->
  perimeter_ring [(Some a, Some c); (Some a, Some d);
                  (Some b, Some d); (Some b, Some c)] = true.
Proof.
  intros Ha Hb Hc Hd. unfold perimeter_ring, on_a_side, same_entry.
  cbn [fst snd].
  rewrite (eq_refl_float a Ha), (eq_refl_float b Hb),
    (eq_refl_float c Hc), (eq_refl_float d Hd).
  now rewrite !orb_true_r.
Qed.

(** Its opposite sides do not meet when the box has an interior. *)
Lemma opposite_sides_disjoint (a b c d : pyfloat) (r : point) :
  Py.lt a b = true -> Py.lt c d = true ->
  ~ (on_side (a, c) (a, d) r /\ on_side (b, d) (b, c) r) /\
  ~ (on_side (a, d) (b, d) r /\ on_side (b, c) (a, c) r).
Proof.
  intros Hab Hcd.
  pose proof (lt_not_eq a b Hab) as Nab.
  pose proof (lt_not_eq c d Hcd) as Ncd.
  assert (Nba : Py.eq b a = false) by (now rewrite eq_sym).
  assert (Ndc : Py.eq d c = false) by (now rewrite eq_sym).
  unfold on_side; cbn [fst snd]. split; intros [H1 H2].
  - destruct H1 as [(_ & Hra & _)|(H & _)]; [|congruence].
    destruct H2 as [(_ & Hrb & _)|(H & _)]; [|congruence].
    pose proof (eq_common _ _ _ Hra Hrb). congruence.
  - destruct H1 as [(H & _)|(_ & Hrd & _)]; [congruence|].
    destruct H2 as [(H & _)|(_ & Hrc & _)]; [congruence|].
    pose proof (eq_common _ _ _ Hrc Hrd). congruence.
Qed.


(** The ceda_di box of channels with a valid value each: the corners are
    the four combinations of the two extents, in the order SW, NW, NE,
    SE, with the low extent not above the high one. *)
Lemma ceda_gen_bbox_ring (d : gmap string chan) (lats lons : list pyfloat) :
  d !! "lat" = Some (Samples lats) ->
  d !! "lon" = Some (Samples lons) ->
  no_nan lats -> no_nan lons ->
  List.filter CedaDi.valid_lat lats <> [] ->
  List.filter CedaDi.valid_lon lons <> [] ->
  exists lon_lo lon_hi lat_lo lat_hi,
    CedaDi._get_min_max lons (Some CedaDi.valid_lon)
    = Ok (Some lon_lo, Some lon_hi) /\
    CedaDi._get_min_max lats (Some CedaDi.valid_lat)
    = Ok (Some lat_lo, Some lat_hi) /\
    CedaDi._gen_bbox d
    = Ok (Geometry "MultiPoint"
            [(Some lon_lo, Some lat_lo); (Some lon_lo, Some lat_hi);
             (Some lon_hi, Some lat_hi); (Some lon_hi, Some lat_lo)]) /\
    perimeter_ring [(Some lon_lo, Some lat_lo); (Some lon_lo, Some lat_hi);
                    (Some lon_hi, Some lat_hi); (Some lon_hi, Some lat_lo)]
    = true /\
    Py.le lon_lo lon_hi = true /\ Py.le lat_lo lat_hi = true.
Proof.
  intros Hlat Hlon Nlat Nlon Klat Klon.
  destruct (ceda_extent_low_high lons (Some CedaDi.valid_lon) Nlon Klon)
    as (lon_lo & lon_hi & Elon & Hlo1 & Hhi1 & Hb1).
  destruct (ceda_extent_low_high lats (Some CedaDi.valid_lat) Nlat Klat)
    as (lat_lo & lat_hi & Elat & Hlo2 & Hhi2 & Hb2).
  exists lon_lo, lon_hi, lat_lo, lat_hi.
  split; [exact Elon|]. split; [exact Elat|].
  pose proof (proj2 (Hb1 lon_lo Hlo1)) as Lon.
  pose proof (proj2 (Hb2 lat_lo Hlo2)) as Lat.
  split; [|split; [|split; [exact Lon|exact Lat]]].
  - unfold CedaDi._gen_bbox, getitem. rewrite Hlat, Hlon.
    cbn [Py.bind samples]. rewrite Elon. cbn [Py.bind]. rewrite Elat.
    reflexivity.
  - apply perimeter_order;
      first [exact (proj1 (le_not_nan _ _ Lon))
            |exact (proj2 (le_not_nan _ _ Lon))
            |exact (proj1 (le_not_nan _ _ Lat))
            |exact (proj2 (le_not_nan _ _ Lat))].
Qed.

(** An empty channel has the extent (None, None), and the Nones go into
    the corners. *)
Lemma ceda_gen_bbox_null (d : gmap string chan) :
  d !! "lat" = Some (Samples []) ->
  d !! "lon" = Some (Samples []) ->
  CedaDi._gen_bbox d
  = Ok (Geometry "MultiPoint"
          [(None, None); (None, None); (None, None); (None, None)]).
Proof.
  intros Hlat Hlon. unfold CedaDi._gen_bbox, getitem.
  rewrite Hlat, Hlon. reflexivity.
Qed.

(** C5.  The eufar box is no ring along the perimeter: on the corners of
    the unit square it lists NE, SE, NW, SW, so its second side is the
    diagonal from SE to NW, where the ceda_di box lists SW, NW, NE, SE. *)
Theorem eufar_bbox_leaves_perimeter :
  (exists ring,
      Eufar._gen_bbox
        (spatial_of [fl 0; fl 0; fl 1; fl 1] [fl 0; fl 1; fl 0; fl 1])
      = Ok (Geometry "MultiPoint" ring) /\
      ring = [(Some (fl 1), Some (fl 1)); (Some (fl 1), Some (fl 0));
              (Some (fl 0), Some (fl 1)); (Some (fl 0), Some (fl 0))] /\
      perimeter_ring ring = false) /\
  (exists ring,
      CedaDi._gen_bbox
        (spatial_of [fl 0; fl 0; fl 1; fl 1] [fl 0; fl 1; fl 0; fl 1])
      = Ok (Geometry "MultiPoint" ring) /\
      ring = [(Some (fl 0), Some (fl 0)); (Some (fl 0), Some (fl 1));
              (Some (fl 1), Some (fl 1)); (Some (fl 1), Some (fl 0))] /\
      perimeter_ring ring = true).
Proof.
  split; eexists; (split; [vm_compute; reflexivity|]);
    split; reflexivity.
Qed.

End BoundingBox.

(** A NaN passes [valid_lat] and, in front of the list, is returned as
    both extents by the ceda_di reducer. *)
Lemma ceda_extent_with_nan :
  CedaDi._get_min_max [Py.nan; fl 10] (Some CedaDi.valid_lat)
  = Ok (Some Py.nan, Some Py.nan).
Proof. reflexivity. Qed.

(* ===================================================================== *)
(** * Parameter records (ceda_di)                                        *)
(* ===================================================================== *)

Section ParameterRecord.

Variable space : ascii -> bool.

Lemma lstrip_first (s : string) (c : ascii) :
  PyStr.first_char (PyStr.lstrip space s) = Some c -> space c = false.
Proof.
  induction s as [|a s IH]; simpl; [discriminate|].
  destruct (space a) eqn:Ha; [exact IH|].
  simpl. intros [= <-]. exact Ha.
Qed.

Lemma rstrip_first (s : string) (c : ascii) :
  PyStr.first_char (PyStr.rstrip space s) = Some c ->
  PyStr.first_char s = Some c.
Proof.
  destruct s as [|a s]; simpl; [discriminate|].
  destruct (PyStr.rstrip space s); [destruct (space a)|]; simpl;
    congruence.
Qed.

Lemma rstrip_last (s : string) (c : ascii) :
  PyStr.last_char (PyStr.rstrip space s) = Some c -> space c = false.
Proof.
  induction s as [|a s IH]; simpl; [discriminate|].
  destruct (PyStr.rstrip space s) as [|b r] eqn:Hr.
  - destruct (space a) eqn:Ha; simpl; [discriminate|].
    intros [= <-]. exact Ha.
  - simpl. exact IH.
Qed.

Lemma strip_trimmed (s : string) : trimmed space (PyStr.strip space s).
Proof.
  unfold PyStr.strip. split; intros c Hc.
  - apply rstrip_first in Hc. exact (lstrip_first s c Hc).
  - exact (rstrip_last _ c Hc).
Qed.







End ParameterRecord.

(** The item the constructor makes of one pair. *)
Lemma add_items_ascii (pairs : list (string * string)) : forall acc,
  forallb (fun kv => PyStr.is_ascii (snd kv)) pairs = true ->
  CedaParameter.add_items pairs acc
  = Ok (acc ++ map (fun kv =>
                      make_param_item (PyStr.strip PyStr.str_space (fst kv))
                        (PyStr.strip PyStr.unicode_space (snd kv)))
                   pairs)%list.
Proof.
  induction pairs as [|[key value] pairs IH]; intros acc H; simpl.
  - now rewrite app_nil_r.
  - simpl in H. apply andb_prop in H as [Hv H].
    unfold PyStr.unicode. rewrite Hv. cbn [Py.bind].
    rewrite (IH _ H), <- app_assoc. reflexivity.
Qed.


(** X1.  A Parameter built from pairs whose values are ASCII text has one
    item for each pair, in the order of the pairs; the item's name is the
    stripped key and its value the stripped value, so neither starts nor
    ends with whitespace.  The given name is kept. *)
Theorem parameter_items_are_stripped_pairs (nm : string)
    (pairs : list (string * string)) :
  forallb (fun kv => PyStr.is_ascii (snd kv)) pairs = true ->
  exists p,
    CedaParameter.__init__ nm (Some pairs) = Ok p /\
    name p = nm /\
    length (get p) = length pairs /\
    (forall i key value,
        pairs !! i = Some (key, value) ->
        exists it,
          get p !! i = Some it /\
          item_name it = PyStr.strip PyStr.str_space key /\
          item_value it = PyStr.strip PyStr.unicode_space value) /\
    Forall (fun it => trimmed PyStr.str_space (item_name it) /\
                      trimmed PyStr.unicode_space (item_value it))
           (get p).
Proof.
  intros Ha. unfold CedaParameter.__init__.
  rewrite (add_items_ascii pairs [] Ha). cbn [Py.bind app].
  eexists. split; [reflexivity|]. unfold get. cbn [items name].
  split; [reflexivity|]. split; [apply length_map|]. split.
  - intros i key value Hi.
    exists (make_param_item (PyStr.strip PyStr.str_space key)
              (PyStr.strip PyStr.unicode_space value)).
    split; [|split; reflexivity].
    rewrite list_lookup_fmap, Hi. reflexivity.
  - apply Forall_forall. intros it Hit. apply list_elem_of_In in Hit.
    apply in_map_iff in Hit as (kv & <- & _).
    split; apply strip_trimmed.
Qed.

Lemma parameter_items_are_stripped_pairs_witness :
  exists p,
    CedaParameter.__init__ "rad"
      (Some [(" long_name ", "  Radiance "); ("units", "W m-2\n")]) = Ok p /\
    name p = "rad" /\
    length (get p) = 2 /\
    (forall i key value,
        [(" long_name ", "  Radiance "); ("units", "W m-2\n")] !! i
        = Some (key, value) ->
        exists it,
          get p !! i = Some it /\
          item_name it = PyStr.strip PyStr.str_space key /\
          item_value it = PyStr.strip PyStr.unicode_space value) /\
    Forall (fun it => trimmed PyStr.str_space (item_name it) /\
                      trimmed PyStr.unicode_space (item_value it))
           (get p).
Proof.
  apply (parameter_items_are_stripped_pairs "rad"
           [(" long_name ", "  Radiance "); ("units", "W m-2\n")]).
  reflexivity.
Defined.




(* ===================================================================== *)
(** * WKT linestring                                                     *)
(* ===================================================================== *)

Section WktString.

Variable format_f : pyfloat -> string.

Lemma wkt_set_add_elem (acc : list string) (s e : string) :
  e ∈ Wkt.set_add acc s <-> e ∈ acc \/ e = s.
Proof.
  unfold Wkt.set_add. destruct (existsb (String.eqb s) acc) eqn:He.
  - split; [auto|intros [H| ->]; [exact H|]].
    apply existsb_exists in He as (x & Hx & Heq).
    apply String.eqb_eq in Heq as ->. now apply list_elem_of_In.
  - rewrite elem_of_app, list_elem_of_singleton. tauto.
Qed.

Lemma wkt_set_add_NoDup (acc : list string) (s : string) :
  NoDup acc -> NoDup (Wkt.set_add acc s).
Proof.
  intros Hn. unfold Wkt.set_add.
  destruct (existsb (String.eqb s) acc) eqn:He; [exact Hn|].
  apply NoDup_app. split; [exact Hn|]. split; [|apply NoDup_singleton].
  intros x Hx Hs. apply list_elem_of_singleton in Hs as ->.
  assert (existsb (String.eqb s) acc = true); [|congruence].
  apply existsb_exists. exists s. split; [now apply list_elem_of_In|].
  apply String.eqb_refl.
Qed.

Lemma wkt_set_add_length (acc : list string) (s : string) :
  length (Wkt.set_add acc s) <= S (length acc).
Proof.
  unfold Wkt.set_add. destruct (existsb (String.eqb s) acc); [lia|].
  rewrite length_app. simpl. lia.
Qed.

Lemma wkt_loop (zs : list (pyfloat * pyfloat)) : forall acc,
  NoDup acc ->
  let cs := fold_left
              (fun coord_list ll =>
                 Wkt.set_add coord_list (Wkt.entry format_f (fst ll) (snd ll)))
              zs acc in
  NoDup cs /\
  (forall e, e ∈ cs <->
             e ∈ acc \/
             exists lat lon, (lat, lon) ∈ zs /\ e = Wkt.entry format_f lat lon) /\
  length cs <= length acc + length zs.
Proof.
  induction zs as [|[lat lon] zs IH]; intros acc Hn; simpl.
  - split; [exact Hn|]. split; [|lia]. intros e. split; [auto|].
    intros [H|(? & ? & H & _)]; [exact H|inversion H].
  - destruct (IH _ (wkt_set_add_NoDup acc (Wkt.entry format_f lat lon) Hn))
      as (H1 & H2 & H3).
    split; [exact H1|]. split.
    + intros e. rewrite H2, wkt_set_add_elem. split.
      * intros [[H| ->]|(la & lo & H & ->)]; [now left| |].
        -- right. exists lat, lon. split; [left|reflexivity].
        -- right. exists la, lo. split; [now right|reflexivity].
      * intros [H|(la & lo & H & ->)]; [now left; left|].
        apply elem_of_cons in H as [[= -> ->]|H]; [left; now right|].
        right. exists la, lo. split; [exact H|reflexivity].
    + pose proof (wkt_set_add_length acc (Wkt.entry format_f lat lon)). lia.
Qed.

(** X4.  The WKT string of two channels is "LINESTRING (" and ")" around
    the texts of the (lat, lon) samples joined by ", ": each text once,
    however often the sample occurs, and no other text; so it has at most
    as many entries as the shorter channel has values, and none exactly
    when a channel is empty. *)
Theorem to_wkt_lists_each_sample_once (d : gmap string chan)
    (lats lons : list pyfloat) :
  d !! "lat" = Some (Samples lats) ->
  d !! "lon" = Some (Samples lons) ->
  exists entries,
    Wkt._to_wkt format_f d
    = Ok (String.append "LINESTRING ("
            (String.append (PyStr.join ", " entries) ")")) /\
    NoDup entries /\
    (forall e, e ∈ entries <->
               exists lat lon, (lat, lon) ∈ zip lats lons /\
                               e = Wkt.entry format_f lat lon) /\
    length entries <= length lats /\ length entries <= length lons /\
    (entries = [] <-> lats = [] \/ lons = []).
Proof.
  intros Hlat Hlon. exists (Wkt.coord_list_of format_f lats lons).
  unfold Wkt._to_wkt, getitem. rewrite Hlat, Hlon. cbn [Py.bind samples].
  split; [reflexivity|]. unfold Wkt.coord_list_of.
  destruct (wkt_loop (zip lats lons) [] (NoDup_nil_2 (A:=string))) as (H1 & H2 & H3).
  cbn zeta in H1, H2, H3.
  assert (Hmem : forall e,
             e ∈ fold_left
                   (fun coord_list ll =>
                      Wkt.set_add coord_list
                        (Wkt.entry format_f (fst ll) (snd ll)))
                   (zip lats lons) [] <->
             exists lat lon, (lat, lon) ∈ zip lats lons /\
                             e = Wkt.entry format_f lat lon).
  { intros e. rewrite H2. split; [intros [H|H]; [inversion H|exact H]|auto]. }
  rewrite length_zip_with in H3. simpl in H3.
  split; [exact H1|]. split; [exact Hmem|]. split; [lia|]. split; [lia|].
  split.
  - intros He. destruct lats as [|lat lats]; [now left|].
    destruct lons as [|lon lons]; [now right|]. exfalso.
    assert (Hin : Wkt.entry format_f lat lon
                  ∈ fold_left
                      (fun coord_list ll =>
                         Wkt.set_add coord_list
                           (Wkt.entry format_f (fst ll) (snd ll)))
                      (zip (lat :: lats) (lon :: lons)) []).
    { apply Hmem. exists lat, lon. split; [left|reflexivity]. }
    rewrite He in Hin. inversion Hin.
  - intros [-> | ->]; [reflexivity|]. destruct lats; reflexivity.
Qed.

End WktString.

Lemma to_wkt_lists_each_sample_once_witness :
  exists entries,
    Wkt._to_wkt (fun x => if Py.eq x (fl 1) then "1.000000" else "2.000000")
      (spatial_of [fl 1; fl 1; fl 2] [fl 2; fl 2; fl 1])
    = Ok (String.append "LINESTRING ("
            (String.append (PyStr.join ", " entries) ")")) /\
    NoDup entries /\
    (forall e, e ∈ entries <->
               exists lat lon,
                 (lat, lon) ∈ zip [fl 1; fl 1; fl 2] [fl 2; fl 2; fl 1] /\
                 e = Wkt.entry
                       (fun x => if Py.eq x (fl 1) then "1.000000" else "2.000000")
                       lat lon) /\
    length entries <= length [fl 1; fl 1; fl 2] /\
    length entries <= length [fl 2; fl 2; fl 1] /\
    (entries = [] <-> [fl 1; fl 1; fl 2] = [] \/ [fl 2; fl 2; fl 1] = []).
Proof.
  apply (to_wkt_lists_each_sample_once
           (fun x => if Py.eq x (fl 1) then "1.000000" else "2.000000")
           (spatial_of [fl 1; fl 1; fl 2] [fl 2; fl 2; fl 1])
           [fl 1; fl 1; fl 2] [fl 2; fl 2; fl 1]);
    reflexivity.
Defined.

(* ===================================================================== *)
(** * More on the summarizer, the reducers and the validators            *)
(* ===================================================================== *)

Lemma every_one {A : Type} (l : list A) : Py.every 1 0 l = l.
Proof. induction l as [|x l IH]; simpl; [reflexivity|]. now rewrite IH. Qed.

(** X5.  The summary of a non-empty track has exactly
    ceil(n / step) points, n being the number of (lon, lat) pairs and
    step = ceil(len(lons) / 30). *)
Theorem summary_length (d : gmap string chan) (lats lons : list pyfloat) :
  d !! "lon" = Some (Samples lons) ->
  d !! "lat" = Some (Samples lats) ->
  lons <> [] ->
  let step := Py.ceil_div (length lons) CedaDi.num_points in
  exists summ,
    CedaDi._gen_coord_summary d = Ok summ /\
    length (coordinates summ)
    = Py.ceil_div (Nat.min (length lons) (length lats)) step.
Proof.
  intros Hlon Hlat Hne step.
  destruct (ceil_div_30 (length lons)) as [_ Hpos].
  assert (Hstep : 1 <= step).
  { apply Hpos. destruct lons; [congruence|simpl; lia]. }
  exists (Geometry "LineString" (Py.every step 0 (zip lons lats))). split.
  - unfold CedaDi._gen_coord_summary, getitem. rewrite Hlon, Hlat.
    cbn [Py.bind samples]. fold step. unfold Py.slice_step.
    destruct (Nat.eqb_spec step 0) as [Hz|_]; [lia|]. cbn [Py.bind].
    now rewrite every_zip.
  - cbn [coordinates].
    destruct (every_length step (zip lons lats) 0) as [H1 H2]; [lia|].
    rewrite length_zip_with in H1, H2. unfold Py.ceil_div.
    set (n := Nat.min (length lons) (length lats)) in *.
    set (out := length (Py.every step 0 (zip lons lats))) in *.
    apply (Nat.div_unique _ _ _ (n + (step - 1) - step * out)); lia.
Qed.

Lemma summary_length_witness :
  let lons := map (fun n => fl (Z.of_nat n)) (seq 0 61) in
  let lats := map (fun n => fl (Z.of_nat n - 30)) (seq 0 61) in
  let step := Py.ceil_div (length lons) CedaDi.num_points in
  exists summ,
    CedaDi._gen_coord_summary (spatial_of lats lons) = Ok summ /\
    length (coordinates summ)
    = Py.ceil_div (Nat.min (length lons) (length lats)) step.
Proof.
  intros lons lats.
  apply (summary_length (spatial_of lats lons) lats lons);
    [reflexivity|reflexivity|discriminate].
Defined.

(** X6.  A track of at most 30 longitudes is summarized by itself: the
    summary is the list of all its (lon, lat) pairs. *)
Theorem summary_of_short_track_is_whole (d : gmap string chan)
    (lats lons : list pyfloat) :
  d !! "lon" = Some (Samples lons) ->
  d !! "lat" = Some (Samples lats) ->
  lons <> [] -> length lons <= 30 ->
  CedaDi._gen_coord_summary d = Ok (Geometry "LineString" (zip lons lats)).
Proof.
  intros Hlon Hlat Hne Hlen.
  assert (Hstep : Py.ceil_div (length lons) CedaDi.num_points = 1).
  { unfold Py.ceil_div, CedaDi.num_points. simpl Nat.sub.
    destruct lons as [|x lons]; [congruence|]. simpl length in *.
    symmetry. apply (Nat.div_unique _ _ _ (length lons)); lia. }
  unfold CedaDi._gen_coord_summary, getitem. rewrite Hlon, Hlat.
  cbn [Py.bind samples]. rewrite Hstep. unfold Py.slice_step.
  cbn [Nat.eqb Py.bind]. now rewrite !every_one.
Qed.

Lemma summary_of_short_track_is_whole_witness :
  CedaDi._gen_coord_summary (spatial_of [fl 1; fl 2; fl 3] [fl 4; fl 5; fl 6])
  = Ok (Geometry "LineString" (zip [fl 4; fl 5; fl 6] [fl 1; fl 2; fl 3])).
Proof.
  apply (summary_of_short_track_is_whole
           (spatial_of [fl 1; fl 2; fl 3] [fl 4; fl 5; fl 6])
           [fl 1; fl 2; fl 3] [fl 4; fl 5; fl 6]);
    [reflexivity|reflexivity|discriminate|simpl; lia].
Defined.

Lemma max_from_in (l : list pyfloat) : forall m, Py.max_from m l ∈ m :: l.
Proof.
  induction l as [|i l IH]; intros m; simpl; [left|].
  destruct (Py.gt i m); [right; apply IH|].
  pose proof (IH m) as H. apply elem_of_cons in H as [->|H];
    [left|do 2 right; exact H].
Qed.

Lemma min_from_in (l : list pyfloat) : forall m, Py.min_from m l ∈ m :: l.
Proof.
  induction l as [|i l IH]; intros m; simpl; [left|].
  destruct (Py.lt i m); [right; apply IH|].
  pose proof (IH m) as H. apply elem_of_cons in H as [->|H];
    [left|do 2 right; exact H].
Qed.

Lemma filter_idem {A : Type} (g : A -> bool) (l : list A) :
  List.filter g (List.filter g l) = List.filter g l.
Proof.
  induction l as [|x l IH]; simpl; [reflexivity|].
  destruct (g x) eqn:Hx; simpl; [rewrite Hx, IH|]; auto.
Qed.

Lemma filter_elem {A : Type} (g : A -> bool) (l : list A) (x : A) :
  x ∈ List.filter g l <-> x ∈ l /\ g x = true.
Proof. rewrite !list_elem_of_In. apply filter_In. Qed.

(** X7.  Away from NaN the validators are the range tests
    -90 <= x <= 90 and -180 <= x <= 180; and whatever [valid_lat]
    accepts, [valid_lon] accepts. *)
Theorem validators_are_range_tests (x : pyfloat) :
  Py.is_nan x = false ->
  CedaDi.valid_lat x = in_range 90 x /\
  CedaDi.valid_lon x = in_range 180 x /\
  (CedaDi.valid_lat x = true -> CedaDi.valid_lon x = true).
Proof.
  intros Hx. split; [exact (valid_lat_in_range x Hx)|].
  split; [exact (valid_lon_in_range x Hx)|].
  rewrite (valid_lat_in_range x Hx), (valid_lon_in_range x Hx).
  unfold in_range. intros H. apply andb_prop in H as [H1 H2].
  apply andb_true_intro. split.
  - apply (le_trans _ (Py.of_Z (- (90)))); [reflexivity|exact H1].
  - apply (le_trans _ (Py.of_Z 90)); [exact H2|reflexivity].
Qed.

Lemma validators_are_range_tests_witness :
  CedaDi.valid_lat (fl (-91)) = in_range 90 (fl (-91)) /\
  CedaDi.valid_lon (fl (-91)) = in_range 180 (fl (-91)) /\
  (CedaDi.valid_lat (fl (-91)) = true -> CedaDi.valid_lon (fl (-91)) = true).
Proof. apply (validators_are_range_tests (fl (-91))). reflexivity. Defined.

(** X8.  The ceda_di reducer raises ValueError exactly on a non-empty
    list none of whose items passes the filter, and raises nothing
    else. *)
Theorem ceda_reducer_raises_iff (l : list pyfloat)
    (filter_func : option (pyfloat -> bool)) :
  (CedaDi._get_min_max l filter_func = Raise ValueError <->
   l <> [] /\ surviving filter_func l = []) /\
  (Py.raises (CedaDi._get_min_max l filter_func) = false <->
   l = [] \/ surviving filter_func l <> []).
Proof.
  pose proof (ceda_get_min_max_raises l filter_func) as Hr.
  destruct l as [|y l].
  - simpl. split; split; try discriminate; auto. intros [H _]. congruence.
  - destruct (surviving filter_func (y :: l)) as [|x kept] eqn:Hk.
    + assert (He : CedaDi._get_min_max (y :: l) filter_func = Raise ValueError).
      { unfold CedaDi._get_min_max. simpl length. simpl Nat.ltb. cbv iota.
        fold (surviving filter_func (y :: l)). rewrite Hk. reflexivity. }
      rewrite He. simpl. split; split; try discriminate; auto.
      intros [H|H]; congruence.
    + rewrite (ceda_get_min_max_kept _ _ x kept); [|discriminate|exact Hk].
      simpl. split; split; try discriminate; auto.
      intros [_ H]. discriminate.
Qed.

(** X9.  On a list without NaN the ceda_di reducer returns the least and
    the greatest of the items that pass the filter, the least first; both
    are such items. *)
Theorem ceda_reducer_returns_min_max (l : list pyfloat)
    (filter_func : option (pyfloat -> bool)) :
  no_nan l -> surviving filter_func l <> [] ->
  exists lo hi,
    CedaDi._get_min_max l filter_func = Ok (Some lo, Some hi) /\
    lo ∈ surviving filter_func l /\ hi ∈ surviving filter_func l /\
    Py.le lo hi = true /\
    (forall x, x ∈ surviving filter_func l ->
               Py.le lo x = true /\ Py.le x hi = true).
Proof.
  intros Hn Hs.
  destruct (ceda_extent_low_high l filter_func Hn Hs)
    as (lo & hi & He & Hlo & Hhi & Hb).
  exists lo, hi. repeat split; try assumption.
  - exact (proj1 (Hb hi Hhi)).
  - exact (proj1 (Hb x H)).
  - exact (proj2 (Hb x H)).
Qed.

Lemma ceda_reducer_returns_min_max_witness :
  exists lo hi,
    CedaDi._get_min_max [fl 3; fl 200; fl (-1); fl 7] (Some CedaDi.valid_lat)
    = Ok (Some lo, Some hi) /\
    lo ∈ surviving (Some CedaDi.valid_lat) [fl 3; fl 200; fl (-1); fl 7] /\
    hi ∈ surviving (Some CedaDi.valid_lat) [fl 3; fl 200; fl (-1); fl 7] /\
    Py.le lo hi = true /\
    (forall x, x ∈ surviving (Some CedaDi.valid_lat)
                     [fl 3; fl 200; fl (-1); fl 7] ->
               Py.le lo x = true /\ Py.le x hi = true).
Proof.
  apply (ceda_reducer_returns_min_max [fl 3; fl 200; fl (-1); fl 7]
           (Some CedaDi.valid_lat)).
  - repeat constructor.
  - discriminate.
Defined.

(** X10.  The eufar reducer never raises: on a non-empty list without NaN
    it returns the greatest item first and the least second, and on the
    empty list (None, None). *)
Theorem eufar_reducer_returns_max_min (l : list pyfloat) :
  no_nan l ->
  Py.raises (Eufar._get_min_max l) = false /\
  (l = [] -> Eufar._get_min_max l = Ok (None, None)) /\
  (l <> [] ->
   exists lo hi,
     Eufar._get_min_max l = Ok (Some hi, Some lo) /\
     lo ∈ l /\ hi ∈ l /\
     (forall x, x ∈ l -> Py.le lo x = true /\ Py.le x hi = true)).
Proof.
  intros Hn. split; [apply eufar_get_min_max_total|].
  split; [intros ->; reflexivity|].
  intros Hl. exact (eufar_extent_high_low l Hn Hl).
Qed.

Lemma eufar_reducer_returns_max_min_witness :
  Py.raises (Eufar._get_min_max [fl 3; fl (-1); fl 7]) = false /\
  ([fl 3; fl (-1); fl 7] = [] ->
   Eufar._get_min_max [fl 3; fl (-1); fl 7] = Ok (None, None)) /\
  ([fl 3; fl (-1); fl 7] <> [] ->
   exists lo hi,
     Eufar._get_min_max [fl 3; fl (-1); fl 7] = Ok (Some hi, Some lo) /\
     lo ∈ [fl 3; fl (-1); fl 7] /\ hi ∈ [fl 3; fl (-1); fl 7] /\
     (forall x, x ∈ [fl 3; fl (-1); fl 7] ->
                Py.le lo x = true /\ Py.le x hi = true)).
Proof.
  apply (eufar_reducer_returns_max_min [fl 3; fl (-1); fl 7]).
  repeat constructor.
Defined.

(* ===================================================================== *)
(** * More on the box, the normalizer and the constructor (ceda_di)      *)
(* ===================================================================== *)

Section CedaPipeline.

Lemma ceda_get_min_max_rejected (l : list pyfloat) (g : pyfloat -> bool) :
  l <> [] -> List.filter g l = [] ->
  CedaDi._get_min_max l (Some g) = Raise ValueError.
Proof.
  intros Hl Hg. unfold CedaDi._get_min_max.
  destruct l as [|y l]; [congruence|]. simpl length. simpl Nat.ltb.
  cbv iota. rewrite Hg. reflexivity.
Qed.

(** The box, from the values the filters keep. *)
Lemma ceda_gen_bbox_value (d : gmap string chan) (lats lons : list pyfloat)
    (x y : pyfloat) (kx ky : list pyfloat) :
  d !! "lat" = Some (Samples lats) ->
  d !! "lon" = Some (Samples lons) ->
  List.filter CedaDi.valid_lon lons = x :: kx ->
  List.filter CedaDi.valid_lat lats = y :: ky ->
  CedaDi._gen_bbox d
  = Ok (Geometry "MultiPoint"
          [(Some (Py.min_from x kx), Some (Py.min_from y ky));
           (Some (Py.min_from x kx), Some (Py.max_from y ky));
           (Some (Py.max_from x kx), Some (Py.max_from y ky));
           (Some (Py.max_from x kx), Some (Py.min_from y ky))]).
Proof.
  intros Hlat Hlon Hx Hy. unfold CedaDi._gen_bbox, getitem.
  rewrite Hlat, Hlon. cbn [Py.bind samples].
  rewrite (ceda_get_min_max_kept lons (Some CedaDi.valid_lon) x kx);
    [|intros ->; discriminate|exact Hx].
  cbn [Py.bind].
  rewrite (ceda_get_min_max_kept lats (Some CedaDi.valid_lat) y ky);
    [|intros ->; discriminate|exact Hy].
  reflexivity.
Qed.

Lemma ceda_gen_bbox_raises (d : gmap string chan) (lats lons : list pyfloat) :
  d !! "lat" = Some (Samples lats) ->
  d !! "lon" = Some (Samples lons) ->
  lats <> [] -> lons <> [] ->
  List.filter CedaDi.valid_lon lons = [] \/
  List.filter CedaDi.valid_lat lats = [] ->
  CedaDi._gen_bbox d = Raise ValueError.
Proof.
  intros Hlat Hlon Nlat Nlon He. unfold CedaDi._gen_bbox, getitem.
  rewrite Hlat, Hlon. cbn [Py.bind samples].
  destruct (List.filter CedaDi.valid_lon lons) as [|x kx] eqn:Hx.
  - now rewrite (ceda_get_min_max_rejected lons _ Nlon Hx).
  - rewrite (ceda_get_min_max_kept lons (Some CedaDi.valid_lon) x kx);
      [|exact Nlon|exact Hx].
    cbn [Py.bind]. destruct He as [He|He]; [discriminate|].
    now rewrite (ceda_get_min_max_rejected lats _ Nlat He).
Qed.

(** The summary of a dict with a longitude. *)
Lemma ceda_summary_value (d : gmap string chan) (lats lons : list pyfloat) :
  d !! "lon" = Some (Samples lons) ->
  d !! "lat" = Some (Samples lats) ->
  lons <> [] ->
  CedaDi._gen_coord_summary d
  = Ok (Geometry "LineString"
          (Py.every (Py.ceil_div (length lons) CedaDi.num_points) 0
             (zip lons lats))).
Proof.
  intros Hlon Hlat Hne.
  destruct (ceil_div_30 (length lons)) as [_ Hpos].
  assert (Hstep : 1 <= Py.ceil_div (length lons) CedaDi.num_points).
  { apply Hpos. destruct lons; [congruence|simpl; lia]. }
  unfold CedaDi._gen_coord_summary, getitem. rewrite Hlon, Hlat.
  cbn [Py.bind samples]. unfold Py.slice_step.
  destruct (Nat.eqb_spec (Py.ceil_div (length lons) CedaDi.num_points) 0)
    as [Hz|_]; [lia|].
  cbn [Py.bind]. now rewrite every_zip.
Qed.

(** X11.  The ceda_di box of two channels without NaN, each with a value
    its validator accepts: four corners SW, NW, NE, SE whose longitudes
    and latitudes are accepted values of the channels, with every
    accepted longitude and latitude between them; the ring runs along
    the perimeter. *)
Theorem ceda_bbox_encloses_valid_samples (d : gmap string chan)
    (lats lons : list pyfloat) :
  d !! "lat" = Some (Samples lats) ->
  d !! "lon" = Some (Samples lons) ->
  no_nan lats -> no_nan lons ->
  List.filter CedaDi.valid_lat lats <> [] ->
  List.filter CedaDi.valid_lon lons <> [] ->
  exists lon_lo lon_hi lat_lo lat_hi,
    CedaDi._gen_bbox d
    = Ok (Geometry "MultiPoint"
            [(Some lon_lo, Some lat_lo); (Some lon_lo, Some lat_hi);
             (Some lon_hi, Some lat_hi); (Some lon_hi, Some lat_lo)]) /\
    perimeter_ring [(Some lon_lo, Some lat_lo); (Some lon_lo, Some lat_hi);
                    (Some lon_hi, Some lat_hi); (Some lon_hi, Some lat_lo)]
    = true /\
    (lon_lo ∈ lons /\ lon_hi ∈ lons /\ lat_lo ∈ lats /\ lat_hi ∈ lats) /\
    (CedaDi.valid_lon lon_lo = true /\ CedaDi.valid_lon lon_hi = true /\
     CedaDi.valid_lat lat_lo = true /\ CedaDi.valid_lat lat_hi = true) /\
    (forall lon, lon ∈ lons -> CedaDi.valid_lon lon = true ->
                 Py.le lon_lo lon = true /\ Py.le lon lon_hi = true) /\
    (forall lat, lat ∈ lats -> CedaDi.valid_lat lat = true ->
                 Py.le lat_lo lat = true /\ Py.le lat lat_hi = true).
Proof.
  intros Hlat Hlon Nlat Nlon Klat Klon.
  destruct (ceda_extent_low_high lons (Some CedaDi.valid_lon) Nlon Klon)
    as (lon_lo & lon_hi & Elon & Hlo1 & Hhi1 & Hb1).
  destruct (ceda_extent_low_high lats (Some CedaDi.valid_lat) Nlat Klat)
    as (lat_lo & lat_hi & Elat & Hlo2 & Hhi2 & Hb2).
  cbn [surviving] in *.
  apply filter_elem in Hlo1 as [Hlo1 Vlo1]. apply filter_elem in Hhi1 as [Hhi1 Vhi1].
  apply filter_elem in Hlo2 as [Hlo2 Vlo2]. apply filter_elem in Hhi2 as [Hhi2 Vhi2].
  exists lon_lo, lon_hi, lat_lo, lat_hi.
  assert (Hnn : forall l x, no_nan l -> x ∈ l -> Py.is_nan x = false).
  { intros l x Hl Hx. unfold no_nan in Hl. rewrite Forall_forall in Hl. auto. }
  split; [|split; [|split; [|split; [|split]]]].
  - unfold CedaDi._gen_bbox, getitem. rewrite Hlat, Hlon.
    cbn [Py.bind samples]. rewrite Elon. cbn [Py.bind]. rewrite Elat.
    reflexivity.
  - apply perimeter_order; eauto.
  - auto.
  - auto.
  - intros lon Hin Hv. apply Hb1. apply filter_elem. auto.
  - intros lat Hin Hv. apply Hb2. apply filter_elem. auto.
Qed.

Lemma ceda_bbox_encloses_valid_samples_witness :
  exists lon_lo lon_hi lat_lo lat_hi,
    CedaDi._gen_bbox (spatial_of [fl 10; fl 95; fl (-5)] [fl 200; fl 20; fl 30])
    = Ok (Geometry "MultiPoint"
            [(Some lon_lo, Some lat_lo); (Some lon_lo, Some lat_hi);
             (Some lon_hi, Some lat_hi); (Some lon_hi, Some lat_lo)]) /\
    perimeter_ring [(Some lon_lo, Some lat_lo); (Some lon_lo, Some lat_hi);
                    (Some lon_hi, Some lat_hi); (Some lon_hi, Some lat_lo)]
    = true /\
    (lon_lo ∈ [fl 200; fl 20; fl 30] /\ lon_hi ∈ [fl 200; fl 20; fl 30] /\
     lat_lo ∈ [fl 10; fl 95; fl (-5)] /\ lat_hi ∈ [fl 10; fl 95; fl (-5)]) /\
    (CedaDi.valid_lon lon_lo = true /\ CedaDi.valid_lon lon_hi = true /\
     CedaDi.valid_lat lat_lo = true /\ CedaDi.valid_lat lat_hi = true) /\
    (forall lon, lon ∈ [fl 200; fl 20; fl 30] -> CedaDi.valid_lon lon = true ->
                 Py.le lon_lo lon = true /\ Py.le lon lon_hi = true) /\
    (forall lat, lat ∈ [fl 10; fl 95; fl (-5)] -> CedaDi.valid_lat lat = true ->
                 Py.le lat_lo lat = true /\ Py.le lat lat_hi = true).
Proof.
  apply (ceda_bbox_encloses_valid_samples
           (spatial_of [fl 10; fl 95; fl (-5)] [fl 200; fl 20; fl 30])
           [fl 10; fl 95; fl (-5)] [fl 200; fl 20; fl 30]);
    first [reflexivity | discriminate | repeat constructor].
Defined.

(** X12.  Handed two non-empty channels, the ceda_di [_to_geojson] raises
    ValueError exactly when the validator of one channel rejects all its
    values; otherwise it returns a block with the box and the summary of
    the channels as they are. *)
Theorem ceda_to_geojson_raises_iff (d : gmap string chan)
    (lats lons : list pyfloat) :
  d !! "lat" = Some (Samples lats) ->
  d !! "lon" = Some (Samples lons) ->
  lats <> [] -> lons <> [] ->
  (CedaDi._to_geojson d = Raise ValueError <->
   List.filter CedaDi.valid_lon lons = [] \/
   List.filter CedaDi.valid_lat lats = []) /\
  (List.filter CedaDi.valid_lon lons <> [] ->
   List.filter CedaDi.valid_lat lats <> [] ->
   exists bbox,
     CedaDi._gen_bbox d = Ok bbox /\
     length (coordinates bbox) = 4 /\
     CedaDi._to_geojson d
     = Ok (Some {| CedaDi.g_bbox := bbox;
                   CedaDi.g_summary :=
                     Geometry "LineString"
                       (Py.every (Py.ceil_div (length lons) CedaDi.num_points)
                          0 (zip lons lats)) |})).
Proof.
  intros Hlat Hlon Nlat Nlon.
  assert (Hgo : CedaDi._to_geojson d
                = Py.bind (CedaDi._gen_bbox d) (fun bbox =>
                  Py.bind (CedaDi._gen_coord_summary d) (fun summ =>
                  Ok (Some {| CedaDi.g_bbox := bbox;
                              CedaDi.g_summary := summ |})))).
  { unfold CedaDi._to_geojson, getitem. rewrite Hlat, Hlon.
    cbn [Py.bind samples]. destruct lats; [congruence|].
    destruct lons; [congruence|]. reflexivity. }
  rewrite Hgo, (ceda_summary_value d lats lons Hlon Hlat Nlon).
  destruct (List.filter CedaDi.valid_lon lons) as [|x kx] eqn:Hx;
    [|destruct (List.filter CedaDi.valid_lat lats) as [|y ky] eqn:Hy].
  - rewrite (ceda_gen_bbox_raises d lats lons Hlat Hlon Nlat Nlon);
      [|left; exact Hx].
    cbn [Py.bind]. split; [tauto|]. congruence.
  - rewrite (ceda_gen_bbox_raises d lats lons Hlat Hlon Nlat Nlon);
      [|right; exact Hy].
    cbn [Py.bind]. split; [tauto|]. congruence.
  - rewrite (ceda_gen_bbox_value d lats lons x y kx ky Hlat Hlon Hx Hy).
    cbn [Py.bind]. split.
    + split; [discriminate|intros [H|H]; discriminate].
    + intros _ _. eexists. split; [reflexivity|]. split; reflexivity.
Qed.

Lemma ceda_to_geojson_raises_iff_witness :
  (CedaDi._to_geojson (spatial_of [fl 10; fl 20] [fl 200; fl 300])
   = Raise ValueError <->
   List.filter CedaDi.valid_lon [fl 200; fl 300] = [] \/
   List.filter CedaDi.valid_lat [fl 10; fl 20] = []) /\
  (List.filter CedaDi.valid_lon [fl 200; fl 300] <> [] ->
   List.filter CedaDi.valid_lat [fl 10; fl 20] <> [] ->
   exists bbox,
     CedaDi._gen_bbox (spatial_of [fl 10; fl 20] [fl 200; fl 300]) = Ok bbox /\
     length (coordinates bbox) = 4 /\
     CedaDi._to_geojson (spatial_of [fl 10; fl 20] [fl 200; fl 300])
     = Ok (Some {| CedaDi.g_bbox := bbox;
                   CedaDi.g_summary :=
                     Geometry "LineString"
                       (Py.every
                          (Py.ceil_div (length [fl 200; fl 300])
                             CedaDi.num_points)
                          0 (zip [fl 200; fl 300] [fl 10; fl 20])) |})).
Proof.
  apply (ceda_to_geojson_raises_iff
           (spatial_of [fl 10; fl 20] [fl 200; fl 300])
           [fl 10; fl 20] [fl 200; fl 300]);
    first [reflexivity | discriminate].
Defined.

End CedaPipeline.

Section CedaConstructor.

Variable sha1_hexdigest : string -> string.

(** The outcomes of the spatial step on sequences. *)
Lemma init_spatial_cases (r : positive)
    (h : gmap positive (gmap string chan)) (d : gmap string chan)
    (lats lons : list pyfloat) :
  h !! r = Some d ->
  d !! "lat" = Some (Samples lats) ->
  d !! "lon" = Some (Samples lons) ->
  let flats := List.filter CedaDi.valid_lat lats in
  let flons := List.filter CedaDi.valid_lon lons in
  exists sp,
    fst (CedaDi.init_spatial (Some r) h) = Ok sp /\
    (sp = None <-> flats = [] \/ flons = []) /\
    (forall g, sp = Some g ->
       coordinates (CedaDi.g_summary g)
       = Py.every (Py.ceil_div (length flons) CedaDi.num_points) 0
           (zip flons flats) /\
       exists lon_lo lon_hi lat_lo lat_hi,
         coordinates (CedaDi.g_bbox g)
         = [(Some lon_lo, Some lat_lo); (Some lon_lo, Some lat_hi);
            (Some lon_hi, Some lat_hi); (Some lon_hi, Some lat_lo)] /\
         lon_lo ∈ flons /\ lon_hi ∈ flons /\
         lat_lo ∈ flats /\ lat_hi ∈ flats).
Proof.
  intros Hr Hlat Hlon flats flons.
  rewrite (init_spatial_filters r h d lats lons Hr Hlat Hlon). cbn [fst].
  fold flats flons.
  set (d' := <["lon" := Samples flons]> (<["lat" := Samples flats]> d)).
  assert (Hlat' : d' !! "lat" = Some (Samples flats)).
  { unfold d'. rewrite lookup_insert_ne by discriminate.
    apply lookup_insert_eq. }
  assert (Hlon' : d' !! "lon" = Some (Samples flons)).
  { apply lookup_insert_eq. }
  destruct flats as [|y ky] eqn:Ey.
  { exists None. rewrite (ceda_to_geojson_no_lats d' _ Hlat' Hlon').
    split; [reflexivity|]. split; [tauto|discriminate]. }
  destruct flons as [|x kx] eqn:Ex.
  { exists None. rewrite (ceda_to_geojson_no_lons d' _ Hlat' Hlon').
    split; [reflexivity|]. split; [tauto|discriminate]. }
  assert (Fy : List.filter CedaDi.valid_lat (y :: ky) = y :: ky).
  { rewrite <- Ey. apply filter_idem. }
  assert (Fx : List.filter CedaDi.valid_lon (x :: kx) = x :: kx).
  { rewrite <- Ex. apply filter_idem. }
  eexists. split.
  - unfold CedaDi._to_geojson, getitem. rewrite Hlat', Hlon'.
    cbn [Py.bind samples length Nat.ltb Nat.leb].
    rewrite (ceda_gen_bbox_value d' _ _ x y kx ky Hlat' Hlon' Fx Fy).
    rewrite (ceda_summary_value d' _ _ Hlon' Hlat'); [|discriminate].
    reflexivity.
  - split; [split; [discriminate|intros [H|H]; discriminate]|].
    intros g [= <-]. cbn [coordinates CedaDi.g_summary CedaDi.g_bbox].
    split; [reflexivity|].
    exists (Py.min_from x kx), (Py.max_from x kx),
      (Py.min_from y ky), (Py.max_from y ky).
    split; [reflexivity|].
    repeat split; first [apply min_from_in | apply max_from_in].
Qed.

(** X13.  The spatial step of the constructor never raises on a dict
    whose "lat" and "lon" are sequences: it filters first, so the box is
    computed from values the validators accept.  It gives None when a
    filtered channel is empty; otherwise a block whose corners are made
    of kept longitudes and latitudes and whose summary is taken from the
    kept values. *)
Theorem init_spatial_never_raises (r : positive)
    (h : gmap positive (gmap string chan)) (d : gmap string chan)
    (lats lons : list pyfloat) :
  h !! r = Some d ->
  d !! "lat" = Some (Samples lats) ->
  d !! "lon" = Some (Samples lons) ->
  let flats := List.filter CedaDi.valid_lat lats in
  let flons := List.filter CedaDi.valid_lon lons in
  exists sp,
    fst (CedaDi.init_spatial (Some r) h) = Ok sp /\
    (sp = None <-> flats = [] \/ flons = []) /\
    (forall g, sp = Some g ->
       coordinates (CedaDi.g_summary g)
       = Py.every (Py.ceil_div (length flons) CedaDi.num_points) 0
           (zip flons flats) /\
       exists lon_lo lon_hi lat_lo lat_hi,
         coordinates (CedaDi.g_bbox g)
         = [(Some lon_lo, Some lat_lo); (Some lon_lo, Some lat_hi);
            (Some lon_hi, Some lat_hi); (Some lon_hi, Some lat_lo)] /\
         lon_lo ∈ flons /\ lon_hi ∈ flons /\
         lat_lo ∈ flats /\ lat_hi ∈ flats).
Proof. exact (init_spatial_cases r h d lats lons). Qed.

Lemma init_spatial_never_raises_witness :
  let flats := List.filter CedaDi.valid_lat [fl 10; fl 200; fl 30] in
  let flons := List.filter CedaDi.valid_lon [fl 10; fl 20; fl 300] in
  exists sp,
    fst (CedaDi.init_spatial (Some 3%positive)
           {[3%positive := spatial_of [fl 10; fl 200; fl 30]
                             [fl 10; fl 20; fl 300]]}) = Ok sp /\
    (sp = None <-> flats = [] \/ flons = []) /\
    (forall g, sp = Some g ->
       coordinates (CedaDi.g_summary g)
       = Py.every (Py.ceil_div (length flons) CedaDi.num_points) 0
           (zip flons flats) /\
       exists lon_lo lon_hi lat_lo lat_hi,
         coordinates (CedaDi.g_bbox g)
         = [(Some lon_lo, Some lat_lo); (Some lon_lo, Some lat_hi);
            (Some lon_hi, Some lat_hi); (Some lon_hi, Some lat_lo)] /\
         lon_lo ∈ flons /\ lon_hi ∈ flons /\
         lat_lo ∈ flats /\ lat_hi ∈ flats).
Proof.
  apply (init_spatial_never_raises 3%positive
           {[3%positive := spatial_of [fl 10; fl 200; fl 30]
                             [fl 10; fl 20; fl 300]]}
           (spatial_of [fl 10; fl 200; fl 30] [fl 10; fl 20; fl 300])
           [fl 10; fl 200; fl 30] [fl 10; fl 20; fl 300]);
    reflexivity.
Defined.

(** X14.  Building a second record from the same spatial dict changes
    nothing more: the dict was filtered by the first construction, and
    the second one computes the same block and leaves the store as it
    found it. *)
Theorem init_spatial_twice (r : positive)
    (h : gmap positive (gmap string chan)) (d : gmap string chan)
    (lats lons : list pyfloat) :
  h !! r = Some d ->
  d !! "lat" = Some (Samples lats) ->
  d !! "lon" = Some (Samples lons) ->
  CedaDi.init_spatial (Some r) (snd (CedaDi.init_spatial (Some r) h))
  = CedaDi.init_spatial (Some r) h.
Proof.
  intros Hr Hlat Hlon.
  rewrite (init_spatial_filters r h d lats lons Hr Hlat Hlon). cbn [snd].
  set (flats := List.filter CedaDi.valid_lat lats).
  set (flons := List.filter CedaDi.valid_lon lons).
  set (d' := <["lon" := Samples flons]> (<["lat" := Samples flats]> d)).
  rewrite (init_spatial_filters r (<[r := d']> h) d' flats flons).
  - unfold flats, flons. rewrite !filter_idem. fold flats flons.
    assert (Hd : <["lon" := Samples flons]> (<["lat" := Samples flats]> d') = d').
    { apply map_eq. intros k. unfold d'.
      destruct (decide (k = "lon")) as [->|Hk1];
        [now rewrite !lookup_insert_eq|].
      rewrite (lookup_insert_ne _ "lon" k) by congruence.
      destruct (decide (k = "lat")) as [->|Hk2].
      - rewrite lookup_insert_eq, (lookup_insert_ne _ "lon" "lat") by discriminate.
        now rewrite lookup_insert_eq.
      - now rewrite (lookup_insert_ne _ "lat" k) by congruence. }
    rewrite Hd, insert_insert_eq. reflexivity.
  - apply lookup_insert_eq.
  - unfold d'. rewrite lookup_insert_ne by discriminate. apply lookup_insert_eq.
  - apply lookup_insert_eq.
Qed.

Lemma init_spatial_twice_witness :
  CedaDi.init_spatial (Some 3%positive)
    (snd (CedaDi.init_spatial (Some 3%positive)
            {[3%positive := spatial_of [fl 10; fl 200] [fl 20; fl 300]]}))
  = CedaDi.init_spatial (Some 3%positive)
      {[3%positive := spatial_of [fl 10; fl 200] [fl 20; fl 300]]}.
Proof.
  apply (init_spatial_twice 3%positive
           {[3%positive := spatial_of [fl 10; fl 200] [fl 20; fl 300]]}
           (spatial_of [fl 10; fl 200] [fl 20; fl 300])
           [fl 10; fl 200] [fl 20; fl 300]);
    reflexivity.
Defined.

Lemma init_spatial_no_lon (r : positive)
    (h : gmap positive (gmap string chan)) (d : gmap string chan)
    (lats : list pyfloat) :
  h !! r = Some d ->
  d !! "lat" = Some (Samples lats) ->
  d !! "lon" = None ->
  CedaDi.init_spatial (Some r) h
  = (Raise KeyError,
     <[r := <["lat" := Samples (List.filter CedaDi.valid_lat lats)]> d]> h).
Proof.
  intros Hr Hlat Hlon. unfold CedaDi.init_spatial, CedaDi.filter_item.
  rewrite Hr. simpl. unfold getitem at 1. rewrite Hlat. simpl.
  rewrite lookup_insert_eq. simpl. unfold getitem at 1.
  rewrite lookup_insert_ne by discriminate. rewrite Hlon. reflexivity.
Qed.

(** X15.  A spatial dict with "lat" but without "lon" makes the
    constructor raise KeyError after it has already replaced "lat" by
    the filtered list: the caller's dict is left half-filtered. *)
Theorem init_keyerror_leaves_lat_filtered
    (filesystem : option (gmap string pyval)) (r : positive)
    (temporal data_format : option (gmap string pyval))
    (parameters : option (list ParameterObj)) (kwargs : gmap string pyval)
    (h : gmap positive (gmap string chan)) (d : gmap string chan)
    (lats : list pyfloat) :
  h !! r = Some d ->
  d !! "lat" = Some (Samples lats) ->
  d !! "lon" = None ->
  CedaDi.__init__ sha1_hexdigest filesystem (Some r) temporal data_format
    parameters kwargs h
  = (Raise KeyError,
     <[r := <["lat" := Samples (List.filter CedaDi.valid_lat lats)]> d]> h).
Proof.
  intros Hr Hlat Hlon. unfold CedaDi.__init__.
  rewrite (init_spatial_no_lon r h d lats Hr Hlat Hlon). reflexivity.
Qed.

(** X16.  With no spatial group, or one whose "lat" and "lon" are
    sequences, construction succeeds exactly when the filesystem group is
    a dict with a string under "path"; the identifier is then the hash of
    that path, and the exported dict holds the groups as they were
    given. *)
Theorem init_succeeds_iff_path
    (filesystem : option (gmap string pyval)) (spatial : option positive)
    (temporal data_format : option (gmap string pyval))
    (parameters : option (list ParameterObj)) (kwargs : gmap string pyval)
    (h : gmap positive (gmap string chan)) :
  (spatial = None \/
   exists r d lats lons,
     spatial = Some r /\ h !! r = Some d /\
     d !! "lat" = Some (Samples lats) /\ d !! "lon" = Some (Samples lons)) ->
  let run := CedaDi.__init__ sha1_hexdigest filesystem spatial temporal
               data_format parameters kwargs h in
  ((exists self, fst run = Ok self) <->
   (exists fs path, filesystem = Some fs /\ fs !! "path" = Some (PStr path))) /\
  (forall self, fst run = Ok self ->
     (exists fs path,
         filesystem = Some fs /\ fs !! "path" = Some (PStr path) /\
         CedaDi.d_id (CedaDi.as_dict self) = sha1_hexdigest path) /\
     CedaDi.d_file (CedaDi.as_dict self) = filesystem /\
     CedaDi.d_temporal (CedaDi.as_dict self) = temporal /\
     CedaDi.d_data_format (CedaDi.as_dict self) = data_format /\
     CedaDi.d_misc (CedaDi.as_dict self) = kwargs /\
     CedaDi.d_parameters (CedaDi.as_dict self) = option_map (map get) parameters /\
     Ok (CedaDi.d_spatial (CedaDi.as_dict self))
     = fst (CedaDi.init_spatial spatial h)).
Proof.
  intros Hsp run.
  assert (Hok : exists sp, fst (CedaDi.init_spatial spatial h) = Ok sp).
  { destruct Hsp as [->|(r & d & lats & lons & -> & Hr & Hlat & Hlon)].
    - exists None. reflexivity.
    - destruct (init_spatial_cases r h d lats lons Hr Hlat Hlon)
        as (sp & Hsp & _). exists sp. exact Hsp. }
  destruct Hok as (sp & Hok). subst run. unfold CedaDi.__init__.
  destruct (CedaDi.init_spatial spatial h) as [res h']. cbn [fst] in *.
  subst res. cbn [Py.bind]. unfold CedaDi.identifier, CedaDi.as_dict.
  destruct filesystem as [fs|].
  2: { split; [split; [intros [? [=]]|intros (? & ? & [=] & _)]|intros ? [=]]. }
  destruct (fs !! "path") as [[ | | path | | | | ]|] eqn:Hp; cbn [Py.bind].
  all: try (split; [split; [intros [? [=]]
                           |intros (? & ? & [= <-] & Hq); congruence]
                   |intros ? [=]]).
  split.
  - split; [intros _; exists fs, path; auto|intros _; eexists; reflexivity].
  - intros self [= <-]. cbn. split; [exists fs, path; auto|]. repeat split.
Qed.

End CedaConstructor.

Lemma init_keyerror_leaves_lat_filtered_witness :
  CedaDi.__init__ (fun s => s) None (Some 3%positive) None None None ∅
    {[3%positive := ({["lat" := Samples [fl 10; fl 200]]} : gmap string chan)]}
  = (Raise KeyError,
     <[3%positive :=
         <["lat" := Samples (List.filter CedaDi.valid_lat [fl 10; fl 200])]>
           ({["lat" := Samples [fl 10; fl 200]]} : gmap string chan)]>
       {[3%positive := ({["lat" := Samples [fl 10; fl 200]]} : gmap string chan)]}).
Proof.
  apply (init_keyerror_leaves_lat_filtered (fun s => s) None 3%positive
           None None None ∅
           {[3%positive := ({["lat" := Samples [fl 10; fl 200]]} : gmap string chan)]}
           ({["lat" := Samples [fl 10; fl 200]]} : gmap string chan)
           [fl 10; fl 200]);
    reflexivity.
Defined.

Lemma init_succeeds_iff_path_witness :
  let run := CedaDi.__init__ (fun s => s) (Some {["path" := PStr "a.nc"]})
               None None None None ∅ ∅ in
  ((exists self, fst run = Ok self) <->
   (exists fs path,
       Some ({["path" := PStr "a.nc"]} : gmap string pyval) = Some fs /\
       fs !! "path" = Some (PStr path))) /\
  (forall self, fst run = Ok self ->
     (exists fs path,
         Some ({["path" := PStr "a.nc"]} : gmap string pyval) = Some fs /\
         fs !! "path" = Some (PStr path) /\
         CedaDi.d_id (CedaDi.as_dict self) = (fun s : string => s) path) /\
     CedaDi.d_file (CedaDi.as_dict self) = Some {["path" := PStr "a.nc"]} /\
     CedaDi.d_temporal (CedaDi.as_dict self) = None /\
     CedaDi.d_data_format (CedaDi.as_dict self) = None /\
     CedaDi.d_misc (CedaDi.as_dict self) = ∅ /\
     CedaDi.d_parameters (CedaDi.as_dict self) = option_map (map get) None /\
     Ok (CedaDi.d_spatial (CedaDi.as_dict self))
     = fst (CedaDi.init_spatial None ∅)).
Proof.
  apply (init_succeeds_iff_path (fun s => s)
           (Some {["path" := PStr "a.nc"]}) None None None None ∅ ∅).
  left. reflexivity.
Defined.

(* ===================================================================== *)
(** * Hull builder                                                       *)
(* ===================================================================== *)

Section HullBuilder.

Variable qconvex : list point -> list string.
Variable float : string -> option pyfloat.

Lemma split_space_not_nil (s : string) : Py.split_space s <> [].
Proof.
  induction s as [|c s IH]; simpl; [discriminate|].
  destruct (Ascii.eqb c " "); [discriminate|].
  destruct (Py.split_space s); discriminate.
Qed.

(** The conversion raises exactly on a single field that is a number. *)
Lemma convert_raises (coords : list string) :
  coords <> [] ->
  (Eufar.convert float coords = Raise IndexError <->
   exists c0 x, coords = [c0] /\ float c0 = Some x) /\
  (Py.raises (Eufar.convert float coords) = true ->
   Eufar.convert float coords = Raise IndexError).
Proof.
  intros Hne. destruct coords as [|c0 rest]; [congruence|]. simpl.
  destruct (float c0) as [x|] eqn:H0.
  - destruct rest as [|c1 rest].
    + split; [|reflexivity]. split; [intros _; exists c0, x; auto|reflexivity].
    + destruct (float c1); simpl; (split; [|discriminate]);
        (split; [discriminate|intros (? & ? & [=] & _)]).
  - simpl. split; [|discriminate].
    split; [discriminate|intros (? & ? & [= <-] & Hx); congruence].
Qed.

Lemma line_vertex_spec (line : string) (p : point) :
  line_vertex float line = Some p <->
  exists c0 c1 rest,
    Py.split_space line = c0 :: c1 :: rest /\
    float c0 = Some (fst p) /\ float c1 = Some (snd p).
Proof.
  unfold line_vertex, Eufar.convert.
  destruct (Py.split_space line) as [|c0 [|c1 rest]].
  - split; [discriminate|intros (? & ? & ? & [=] & _)].
  - destruct (float c0); (split; [discriminate|intros (? & ? & ? & [=] & _)]).
  - destruct (float c0) as [x|] eqn:H0.
    + destruct (float c1) as [y|] eqn:H1.
      * split.
        -- intros [= <-]. exists c0, c1, rest. auto.
        -- intros (? & ? & ? & [= <- <- <-] & Hx & Hy).
           destruct p as [px py]. simpl in *. congruence.
      * split; [discriminate|].
        intros (? & ? & ? & [= <- <- <-] & _ & Hy). congruence.
    + split; [discriminate|].
      intros (? & ? & ? & [= <- <- <-] & Hx & _). congruence.
Qed.

Lemma hull_loop_value (lines : list string) : forall hull_coords log,
  lines_convert float lines = true ->
  Eufar.hull_loop float lines hull_coords log
  = (Ok (hull_coords ++ converted float lines)%list,
     (log ++ skipped float lines)%list).
Proof.
  induction lines as [|line lines IH]; intros hc log Hl.
  - simpl. now rewrite !app_nil_r.
  - simpl in Hl. apply andb_prop in Hl as [Hline Hl].
    cbn [Eufar.hull_loop].
    destruct (Eufar.convert float (Py.split_space line)) as [[p|]|e] eqn:Hc;
      [| |discriminate].
    + assert (Hv : line_vertex float line = Some p).
      { unfold line_vertex. now rewrite Hc. }
      rewrite (IH _ _ Hl). unfold converted, skipped.
      cbn [omap list_omap List.filter]. rewrite Hv. cbn.
      now rewrite <- app_assoc.
    + assert (Hv : line_vertex float line = None).
      { unfold line_vertex. now rewrite Hc. }
      rewrite (IH _ _ Hl). unfold converted, skipped.
      cbn [omap list_omap List.filter]. rewrite Hv. cbn.
      now rewrite <- app_assoc.
Qed.

Lemma hull_loop_raises (lines : list string) : forall hull_coords log,
  lines_convert float lines = false ->
  fst (Eufar.hull_loop float lines hull_coords log) = Raise IndexError.
Proof.
  induction lines as [|line lines IH]; intros hc log Hl; [discriminate|].
  simpl in Hl. simpl.
  pose proof (convert_raises (Py.split_space line) (split_space_not_nil line))
    as [_ Hr].
  destruct (Eufar.convert float (Py.split_space line)) as [[p|]|e] eqn:Hc.
  - apply IH. exact Hl.
  - apply IH. exact Hl.
  - specialize (Hr eq_refl). injection Hr as ->. reflexivity.
Qed.

Lemma lines_convert_false (lines : list string) :
  lines_convert float lines = false <->
  exists line c0 x,
    line ∈ lines /\ Py.split_space line = [c0] /\ float c0 = Some x.
Proof.
  induction lines as [|l lines IH]; simpl.
  - split; [discriminate|intros (? & ? & ? & H & _); inversion H].
  - pose proof (convert_raises (Py.split_space l) (split_space_not_nil l))
      as [Hiff Hr].
    destruct (Eufar.convert float (Py.split_space l)) as [o|e] eqn:Hc; simpl.
    + rewrite IH. split.
      * intros (line & c0 & x & Hin & Hs & Hx). exists line, c0, x.
        split; [now right|auto].
      * intros (line & c0 & x & Hin & Hs & Hx).
        apply elem_of_cons in Hin as [->|Hin]; [|exists line, c0, x; auto].
        assert (He : Ok o = Raise IndexError (A := option point));
          [|discriminate].
        apply Hiff. exists c0, x. auto.
    + split; [intros _|reflexivity]. specialize (Hr eq_refl).
      apply Hiff in Hr as (c0 & x & Hs & Hx). exists l, c0, x.
      split; [left|auto].
Qed.

(** X17.  When no line of qconvex's output after the first two is a
    single number, [_gen_hull] returns a Polygon whose vertices are, in
    the order of the lines, the pairs of numbers the first two fields of
    a line convert to; every other line is logged with its fields and
    skipped. *)
Theorem gen_hull_vertices (coord_list : list point) :
  lines_convert float (drop 2 (qconvex coord_list)) = true ->
  exists hull log,
    Eufar._gen_hull qconvex float coord_list = (Ok hull, log) /\
    type hull = "Polygon" /\
    coordinates hull = omap (line_vertex float) (drop 2 (qconvex coord_list)) /\
    (forall p, p ∈ coordinates hull <->
               exists line c0 c1 rest,
                 line ∈ drop 2 (qconvex coord_list) /\
                 Py.split_space line = c0 :: c1 :: rest /\
                 float c0 = Some (fst p) /\ float c1 = Some (snd p)) /\
    length (coordinates hull) + length log
    = length (qconvex coord_list) - 2.
Proof.
  intros Hl. unfold Eufar._gen_hull.
  rewrite (hull_loop_value _ [] [] Hl). cbn [app].
  eexists _, _. split; [reflexivity|]. cbn [type coordinates].
  split; [reflexivity|]. split; [reflexivity|]. split.
  - intros p. unfold converted. rewrite list_elem_of_omap. split.
    + intros (line & Hin & Hv). apply line_vertex_spec in Hv
        as (c0 & c1 & rest & Hs & H0 & H1).
      exists line, c0, c1, rest. auto.
    + intros (line & c0 & c1 & rest & Hin & Hs & H0 & H1).
      exists line. split; [exact Hin|]. apply line_vertex_spec.
      exists c0, c1, rest. auto.
  - destruct (hull_loop_ok float (drop 2 (qconvex coord_list)) [] [] Hl)
      as (hc & lg & Heq & Hlen).
    rewrite (hull_loop_value _ [] [] Hl) in Heq. cbn [app] in Heq.
    injection Heq as <- <-. rewrite Hlen, length_drop. simpl. lia.
Qed.

(** X18.  [_gen_hull] raises, and then IndexError, exactly when one of
    those lines has a single field and that field is a number: only
    ValueError is caught in the loop. *)
Theorem gen_hull_raises_iff (coord_list : list point) :
  (fst (Eufar._gen_hull qconvex float coord_list) = Raise IndexError <->
   exists line c0 x,
     line ∈ drop 2 (qconvex coord_list) /\
     Py.split_space line = [c0] /\ float c0 = Some x) /\
  (Py.raises (fst (Eufar._gen_hull qconvex float coord_list)) = true ->
   fst (Eufar._gen_hull qconvex float coord_list) = Raise IndexError).
Proof.
  rewrite <- lines_convert_false. unfold Eufar._gen_hull.
  destruct (lines_convert float (drop 2 (qconvex coord_list))) eqn:Hl.
  - rewrite (hull_loop_value _ [] [] Hl). cbn.
    split; [split; discriminate|discriminate].
  - pose proof (hull_loop_raises _ [] [] Hl) as Hr.
    destruct (Eufar.hull_loop float (drop 2 (qconvex coord_list)) [] [])
      as [[hc|e] log]; cbn [fst] in *; [discriminate|].
    injection Hr as ->. split; [split; reflexivity|reflexivity].
Qed.

End HullBuilder.

Lemma gen_hull_vertices_witness :
  exists hull log,
    Eufar._gen_hull qconvex_square float_digit [] = (Ok hull, log) /\
    type hull = "Polygon" /\
    coordinates hull
    = omap (line_vertex float_digit) (drop 2 (qconvex_square [])) /\
    (forall p, p ∈ coordinates hull <->
               exists line c0 c1 rest,
                 line ∈ drop 2 (qconvex_square []) /\
                 Py.split_space line = c0 :: c1 :: rest /\
                 float_digit c0 = Some (fst p) /\
                 float_digit c1 = Some (snd p)) /\
    length (coordinates hull) + length log = length (qconvex_square []) - 2.
Proof.
  apply (gen_hull_vertices qconvex_square float_digit []). reflexivity.
Defined.

(* ===================================================================== *)
(** * The reader's dict (envi_geo.py) and the eufar record               *)
(* ===================================================================== *)

Section Reader.

Lemma index_ok (data : list chan) (i : nat) :
  i < length data -> exists v, data !! i = Some v /\ Envi.index data i = Ok v.
Proof.
  intros Hi. destruct (lookup_lt_is_Some_2 data i Hi) as [v Hv].
  exists v. split; [exact Hv|]. unfold Envi.index. now rewrite Hv.
Qed.

(** The dict of a header with "lines" and of at least seven records. *)
Lemma get_geospatial_value (hdr : gmap string chan) (data : list chan)
    (lines : chan) :
  hdr !! "lines" = Some lines -> 7 <= length data ->
  exists time lat lon alt roll pitch heading,
    data !! 0 = Some time /\ data !! 1 = Some lat /\ data !! 2 = Some lon /\
    data !! 3 = Some alt /\ data !! 4 = Some roll /\ data !! 5 = Some pitch /\
    data !! 6 = Some heading /\
    Envi.get_geospatial hdr data
    = Ok (<["heading" := heading]> (<["pitch" := pitch]> (<["roll" := roll]>
         (<["alt" := alt]> (<["lon" := lon]> (<["lat" := lat]>
         (<["time" := time]> (<["lines" := lines]> ∅)))))))).
Proof.
  intros Hl Hlen.
  destruct (index_ok data 0) as (time & H0 & E0); [lia|].
  destruct (index_ok data 1) as (lat & H1 & E1); [lia|].
  destruct (index_ok data 2) as (lon & H2 & E2); [lia|].
  destruct (index_ok data 3) as (alt & H3 & E3); [lia|].
  destruct (index_ok data 4) as (roll & H4 & E4); [lia|].
  destruct (index_ok data 5) as (pitch & H5 & E5); [lia|].
  destruct (index_ok data 6) as (heading & H6 & E6); [lia|].
  exists time, lat, lon, alt, roll, pitch, heading.
  repeat (split; [assumption|]).
  unfold Envi.get_geospatial, getitem. rewrite Hl. cbn [Py.bind].
  rewrite E0, E1, E2, E3, E4, E5, E6. reflexivity.
Qed.

(** X19.  [get_geospatial] returns a dict exactly when the header has
    "lines" and the reader returned at least seven records; a missing
    "lines" raises KeyError, whatever the records, and fewer than seven
    records raise IndexError.  The dict has the eight keys and nothing
    else: "lines" from the header, and "time", "lat", "lon", "alt",
    "roll", "pitch", "heading" from records 0 to 6. *)
Theorem get_geospatial_cases (hdr : gmap string chan) (data : list chan) :
  (hdr !! "lines" = None -> Envi.get_geospatial hdr data = Raise KeyError) /\
  (is_Some (hdr !! "lines") -> length data < 7 ->
   Envi.get_geospatial hdr data = Raise IndexError) /\
  (is_Some (hdr !! "lines") -> 7 <= length data ->
   exists swath_path,
     Envi.get_geospatial hdr data = Ok swath_path /\
     swath_path !! "lines" = hdr !! "lines" /\
     swath_path !! "time" = data !! 0 /\
     swath_path !! "lat" = data !! 1 /\
     swath_path !! "lon" = data !! 2 /\
     swath_path !! "alt" = data !! 3 /\
     swath_path !! "roll" = data !! 4 /\
     swath_path !! "pitch" = data !! 5 /\
     swath_path !! "heading" = data !! 6 /\
     size swath_path = 8).
Proof.
  split; [|split].
  - intros Hl. unfold Envi.get_geospatial, getitem. now rewrite Hl.
  - intros [lines Hl] Hlen. unfold Envi.get_geospatial, getitem, Envi.index.
    rewrite Hl. cbn [Py.bind].
    do 7 (destruct data as [|? data]; [reflexivity|]). simpl in Hlen. lia.
  - intros [lines Hl] Hlen.
    destruct (get_geospatial_value hdr data lines Hl Hlen)
      as (time & lat & lon & alt & roll & pitch & heading
          & H0 & H1 & H2 & H3 & H4 & H5 & H6 & He).
    eexists. split; [exact He|].
    rewrite Hl, H0, H1, H2, H3, H4, H5, H6.
    repeat split; simplify_map_eq; reflexivity.
Qed.

(** X20.  A record built on the reader's dict: when records 1 and 2 are
    sequences, the spatial step of the ceda_di constructor does not
    raise, and it leaves in the reader's dict the filtered latitudes and
    longitudes beside the six other entries, which it does not touch. *)
Theorem properties_of_swath_path (hdr : gmap string chan) (data : list chan)
    (lats lons : list pyfloat) (r : positive)
    (h : gmap positive (gmap string chan)) :
  is_Some (hdr !! "lines") -> 7 <= length data ->
  data !! 1 = Some (Samples lats) ->
  data !! 2 = Some (Samples lons) ->
  exists swath_path sp after,
    Envi.get_geospatial hdr data = Ok swath_path /\
    CedaDi.init_spatial (Some r) (<[r := swath_path]> h)
    = (Ok sp, <[r := after]> h) /\
    after !! "lat" = Some (Samples (List.filter CedaDi.valid_lat lats)) /\
    after !! "lon" = Some (Samples (List.filter CedaDi.valid_lon lons)) /\
    after !! "lines" = hdr !! "lines" /\
    after !! "time" = data !! 0 /\ after !! "alt" = data !! 3 /\
    after !! "roll" = data !! 4 /\ after !! "pitch" = data !! 5 /\
    after !! "heading" = data !! 6.
Proof.
  intros [lines Hl] Hlen Hlat Hlon.
  destruct (get_geospatial_value hdr data lines Hl Hlen)
    as (time & lat & lon & alt & roll & pitch & heading
        & H0 & H1 & H2 & H3 & H4 & H5 & H6 & He).
  rewrite Hlat in H1. rewrite Hlon in H2. injection H1 as <-. injection H2 as <-.
  set (sw := <["heading" := heading]> _) in He.
  assert (Slat : sw !! "lat" = Some (Samples lats))
    by (unfold sw; simplify_map_eq; reflexivity).
  assert (Slon : sw !! "lon" = Some (Samples lons))
    by (unfold sw; simplify_map_eq; reflexivity).
  assert (Hr : <[r := sw]> h !! r = Some sw) by apply lookup_insert_eq.
  destruct (init_spatial_cases r (<[r := sw]> h) sw lats lons Hr Slat Slon)
    as (sp & Hsp & _).
  pose proof (init_spatial_filters r (<[r := sw]> h) sw lats lons Hr Slat Slon)
    as Hf. cbn zeta in Hf.
  rewrite Hf in Hsp. cbn [fst] in Hsp.
  exists sw, sp, (<["lon" := Samples (List.filter CedaDi.valid_lon lons)]>
                    (<["lat" := Samples (List.filter CedaDi.valid_lat lats)]> sw)).
  split; [exact He|]. split.
  - rewrite Hf, Hsp, insert_insert_eq. reflexivity.
  - rewrite Hl, H0, H3, H4, H5, H6. unfold sw.
    repeat split; simplify_map_eq; reflexivity.
Qed.

End Reader.

Lemma properties_of_swath_path_witness :
  exists swath_path sp after,
    Envi.get_geospatial {["lines" := Scalar (fl 2)]}
      (seven_channels [fl 10; fl 200] [fl 20; fl 30]) = Ok swath_path /\
    CedaDi.init_spatial (Some 1%positive) (<[1%positive := swath_path]> ∅)
    = (Ok sp, <[1%positive := after]> ∅) /\
    after !! "lat" = Some (Samples (List.filter CedaDi.valid_lat [fl 10; fl 200])) /\
    after !! "lon" = Some (Samples (List.filter CedaDi.valid_lon [fl 20; fl 30])) /\
    after !! "lines"
    = ({["lines" := Scalar (fl 2)]} : gmap string chan) !! "lines" /\
    after !! "time" = seven_channels [fl 10; fl 200] [fl 20; fl 30] !! 0 /\
    after !! "alt" = seven_channels [fl 10; fl 200] [fl 20; fl 30] !! 3 /\
    after !! "roll" = seven_channels [fl 10; fl 200] [fl 20; fl 30] !! 4 /\
    after !! "pitch" = seven_channels [fl 10; fl 200] [fl 20; fl 30] !! 5 /\
    after !! "heading" = seven_channels [fl 10; fl 200] [fl 20; fl 30] !! 6.
Proof.
  apply (properties_of_swath_path {["lines" := Scalar (fl 2)]}
           (seven_channels [fl 10; fl 200] [fl 20; fl 30])
           [fl 10; fl 200] [fl 20; fl 30] 1%positive ∅).
  - exists (Scalar (fl 2)). reflexivity.
  - simpl. lia.
  - reflexivity.
  - reflexivity.
Defined.

Section EufarConstruction.

Variable qconvex : list point -> list string.
Variable float : string -> option pyfloat.

Lemma eufar_to_geojson_ok (d : gmap string chan) (lats lons : list pyfloat) :
  d !! "lat" = Some (Samples lats) ->
  d !! "lon" = Some (Samples lons) ->
  (3 < length (Eufar.coord_set_of lats lons) ->
   lines_convert float (drop 2 (qconvex (Eufar.coord_set_of lats lons))) = true) ->
  exists sp log,
    Eufar._to_geojson qconvex float d = (Ok sp, log) /\
    (sp = None <-> lats = [] \/ lons = []).
Proof.
  intros Hlat Hlon Hq.
  destruct lats as [|y lats].
  { exists None, []. split; [|tauto].
    apply (eufar_to_geojson_empty qconvex float d [] lons Hlat Hlon). now left. }
  destruct lons as [|x lons].
  { exists None, []. split; [|tauto].
    apply (eufar_to_geojson_empty qconvex float d (y :: lats) [] Hlat Hlon).
    now right. }
  unfold Eufar._to_geojson, getitem. rewrite Hlat, Hlon.
  cbn [Py.bind samples].
  change (0 <? length (y :: lats))%nat with true. cbn [Py.bind samples].
  change (0 <? length (x :: lons))%nat with true. cbv iota.
  set (cs := Eufar.coord_set_of (y :: lats) (x :: lons)) in *.
  destruct (Nat.ltb_spec 3 (length cs)) as [Hgt|Hle].
  - destruct (gen_hull_ok qconvex float cs (Hq Hgt)) as (hc & log & -> & _).
    rewrite (eufar_gen_bbox_ring d x y lats lons Hlat Hlon). cbn [Py.bind].
    eexists _, log. split; [reflexivity|].
    split; [discriminate|intros [H|H]; discriminate].
  - eexists _, []. split; [reflexivity|].
    split; [discriminate|intros [H|H]; discriminate].
Qed.

(** X21.  The eufar constructor needs no file-level group: with a
    spatial group that is absent, or whose "lat" and "lon" are non-empty
    sequences (and, beyond 3 distinct points, an output of qconvex that
    converts), it succeeds for every choice of the other groups, None
    included; the exported dict holds the groups as they were given and
    has no "_id" entry; its spatial entry is None exactly when the
    spatial group is absent. *)
Theorem eufar_init_needs_no_file_level
    (file_level : option (gmap string pyval))
    (spatial : option (gmap string chan))
    (temporal data_format : option (gmap string pyval))
    (parameters : option (list (gmap string pyval)))
    (kwargs : gmap string pyval) :
  (spatial = None \/
   exists d lats lons,
     spatial = Some d /\
     d !! "lat" = Some (Samples lats) /\ d !! "lon" = Some (Samples lons) /\
     (lats = [] \/ lons = [] -> False) /\
     (3 < length (Eufar.coord_set_of lats lons) ->
      lines_convert float (drop 2 (qconvex (Eufar.coord_set_of lats lons)))
      = true)) ->
  exists self log entries,
    EufarRecord.__init__ qconvex float file_level spatial temporal
      data_format parameters kwargs = (Ok self, log) /\
    EufarRecord.d_file (EufarRecord.as_dict self) = file_level /\
    EufarRecord.d_temporal (EufarRecord.as_dict self) = temporal /\
    EufarRecord.d_data_format (EufarRecord.as_dict self) = data_format /\
    EufarRecord.d_parameters (EufarRecord.as_dict self) = parameters /\
    EufarRecord.d_misc (EufarRecord.as_dict self) = kwargs /\
    (EufarRecord.d_spatial (EufarRecord.as_dict self) = None <-> spatial = None) /\
    EufarRecord.properties_pyval (EufarRecord.as_dict self) = PDict entries /\
    Json.getitem entries "_id" = None /\
    Json.getitem entries "file" = Some (Json.of_option info_pyval file_level).
Proof.
  intros Hsp. unfold EufarRecord.__init__.
  destruct Hsp as [->|(d & lats & lons & -> & Hlat & Hlon & Hne & Hq)].
  - eexists _, [], _. split; [reflexivity|]. cbn. repeat split.
  - destruct (eufar_to_geojson_ok d lats lons Hlat Hlon Hq)
      as (sp & log & -> & Hnone).
    cbn [Py.bind]. eexists _, log, _. split; [reflexivity|].
    unfold EufarRecord.as_dict. cbn [EufarRecord.properties EufarRecord.d_file
      EufarRecord.d_temporal EufarRecord.d_data_format EufarRecord.d_parameters
      EufarRecord.d_misc EufarRecord.d_spatial].
    repeat (split; [reflexivity|]).
    split; [|split; [reflexivity|split; reflexivity]].
    split; [|discriminate]. intros H. apply Hnone in H. tauto.
Qed.

End EufarConstruction.

Lemma eufar_init_needs_no_file_level_witness :
  exists self log entries,
    EufarRecord.__init__ qconvex_square float_digit None
      (Some (spatial_of [fl 0; fl 0; fl 1; fl 1] [fl 0; fl 1; fl 0; fl 1]))
      None None None ∅ = (Ok self, log) /\
    EufarRecord.d_file (EufarRecord.as_dict self) = None /\
    EufarRecord.d_temporal (EufarRecord.as_dict self) = None /\
    EufarRecord.d_data_format (EufarRecord.as_dict self) = None /\
    EufarRecord.d_parameters (EufarRecord.as_dict self) = None /\
    EufarRecord.d_misc (EufarRecord.as_dict self) = ∅ /\
    (EufarRecord.d_spatial (EufarRecord.as_dict self) = None <->
     Some (spatial_of [fl 0; fl 0; fl 1; fl 1] [fl 0; fl 1; fl 0; fl 1]) = None) /\
    EufarRecord.properties_pyval (EufarRecord.as_dict self) = PDict entries /\
    Json.getitem entries "_id" = None /\
    Json.getitem entries "file" = Some (Json.of_option info_pyval None).
Proof.
  apply (eufar_init_needs_no_file_level qconvex_square float_digit None
           (Some (spatial_of [fl 0; fl 0; fl 1; fl 1] [fl 0; fl 1; fl 0; fl 1]))
           None None None ∅).
  right. exists (spatial_of [fl 0; fl 0; fl 1; fl 1] [fl 0; fl 1; fl 0; fl 1]),
    [fl 0; fl 0; fl 1; fl 1], [fl 0; fl 1; fl 0; fl 1].
  split; [reflexivity|]. split; [reflexivity|]. split; [reflexivity|].
  split; [intros [H|H]; discriminate H|]. intros _. reflexivity.
Defined.

(* ===================================================================== *)
(** * More on the eufar box and block                                    *)
(* ===================================================================== *)

Section EufarBlock.

Variable qconvex : list point -> list string.
Variable float : string -> option pyfloat.

Lemma eufar_set_add_length (acc : list point) (p : point) :
  length (Eufar.set_add acc p) <= S (length acc).
Proof.
  unfold Eufar.set_add. destruct (existsb (Eufar.point_eq p) acc); [lia|].
  rewrite length_app. simpl. lia.
Qed.

Lemma coord_set_loop_length (zs : list (pyfloat * pyfloat)) : forall acc,
  length (fold_left (fun coord_set ll => Eufar.set_add coord_set (snd ll, fst ll))
            zs acc)
  <= length acc + length zs.
Proof.
  induction zs as [|z zs IH]; intros acc; simpl; [lia|].
  pose proof (IH (Eufar.set_add acc (snd z, fst z))).
  pose proof (eufar_set_add_length acc (snd z, fst z)). lia.
Qed.

(** X22.  A track of fewer than 4 samples never reaches qhull: whatever
    qconvex would print, the eufar block of such non-empty channels holds
    the coordinate set only, without hull and box, and nothing is
    logged. *)
Theorem eufar_short_track_has_no_hull (d : gmap string chan)
    (lats lons : list pyfloat) :
  d !! "lat" = Some (Samples lats) ->
  d !! "lon" = Some (Samples lons) ->
  lats <> [] -> lons <> [] ->
  length lats < 4 \/ length lons < 4 ->
  Eufar._to_geojson qconvex float d
  = (Ok (Some {| Eufar.g_coordinates := Eufar.coord_set_of lats lons;
                 Eufar.g_hull := None;
                 Eufar.g_bbox := None |}),
     []) /\
  length (Eufar.coord_set_of lats lons) <= Nat.min (length lats) (length lons).
Proof.
  intros Hlat Hlon Nlat Nlon Hshort.
  assert (Hlen : length (Eufar.coord_set_of lats lons)
                 <= Nat.min (length lats) (length lons)).
  { unfold Eufar.coord_set_of.
    pose proof (coord_set_loop_length (zip lats lons) []) as H.
    rewrite length_zip_with in H. simpl in H. lia. }
  split; [|exact Hlen].
  unfold Eufar._to_geojson, getitem. rewrite Hlat, Hlon.
  cbn [Py.bind samples].
  destruct lats as [|y lats]; [congruence|].
  destruct lons as [|x lons]; [congruence|].
  change (0 <? length (y :: lats))%nat with true. cbn [Py.bind samples].
  change (0 <? length (x :: lons))%nat with true. cbv iota.
  destruct (Nat.ltb_spec 3 (length (Eufar.coord_set_of (y :: lats) (x :: lons))))
    as [Hgt|_]; [lia|reflexivity].
Qed.


End EufarBlock.

Lemma eufar_short_track_has_no_hull_witness :
  Eufar._to_geojson qconvex_square float_digit
    (spatial_of [fl 1; fl 2; fl 3] [fl 4; fl 5; fl 6; fl 7; fl 8])
  = (Ok (Some {| Eufar.g_coordinates :=
                   Eufar.coord_set_of [fl 1; fl 2; fl 3]
                     [fl 4; fl 5; fl 6; fl 7; fl 8];
                 Eufar.g_hull := None;
                 Eufar.g_bbox := None |}),
     []) /\
  length (Eufar.coord_set_of [fl 1; fl 2; fl 3] [fl 4; fl 5; fl 6; fl 7; fl 8])
  <= Nat.min (length [fl 1; fl 2; fl 3]) (length [fl 4; fl 5; fl 6; fl 7; fl 8]).
Proof.
  apply (eufar_short_track_has_no_hull qconvex_square float_digit
           (spatial_of [fl 1; fl 2; fl 3] [fl 4; fl 5; fl 6; fl 7; fl 8])
           [fl 1; fl 2; fl 3] [fl 4; fl 5; fl 6; fl 7; fl 8]);
    first [reflexivity | discriminate | (left; simpl; lia)].
Defined.



(* ===================================================================== *)
(** * The constructor and the caller's spatial dict                      *)
(* ===================================================================== *)

(** C10.  The constructor writes the filtered sequences into the caller's
    spatial dict (the object at [r]): afterwards its "lat" and "lon"
    entries are the values [valid_lat] and [valid_lon] keep, its other
    entries and every other object of the store are as before, whether
    or not the construction succeeds.  The record's own spatial
    attribute is the GeoJSON block of the rewritten dict, which is
    computed without raising.  The construction succeeds exactly when the
    filesystem group holds a string path, and then filesystem, temporal
    and data_format are stored as they were given, as attributes and in
    the exported dict. *)
Theorem init_rewrites_callers_spatial
    (sha1_hexdigest : string -> string)
    (filesystem : option (gmap string pyval)) (r : positive)
    (temporal data_format : option (gmap string pyval))
    (parameters : option (list ParameterObj)) (kwargs : gmap string pyval)
    (h : gmap positive (gmap string chan)) (d : gmap string chan)
    (lats lons : list pyfloat) :
  h !! r = Some d ->
  d !! "lat" = Some (Samples lats) ->
  d !! "lon" = Some (Samples lons) ->
  let run := CedaDi.__init__ sha1_hexdigest filesystem (Some r) temporal
               data_format parameters kwargs h in
  exists d' sp,
    snd run = <[r := d']> h /\
    d' !! "lat" = Some (Samples (List.filter CedaDi.valid_lat lats)) /\
    d' !! "lon" = Some (Samples (List.filter CedaDi.valid_lon lons)) /\
    (forall k, k <> "lat" -> k <> "lon" -> d' !! k = d !! k) /\
    (forall r', r' <> r -> snd run !! r' = h !! r') /\
    CedaDi._to_geojson d' = Ok sp /\
    (forall fs path,
        filesystem = Some fs -> fs !! "path" = Some (PStr path) ->
        fst run
        = Ok {| CedaDi.filesystem := filesystem;
                CedaDi.temporal := temporal;
                CedaDi.data_format := data_format;
                CedaDi.parameters := option_map (map get) parameters;
                CedaDi.spatial := sp;
                CedaDi.misc := kwargs;
                CedaDi.properties :=
                  {| CedaDi.d_id := sha1_hexdigest path;
                     CedaDi.d_data_format := data_format;
                     CedaDi.d_file := filesystem;
                     CedaDi.d_misc := kwargs;
                     CedaDi.d_parameters := option_map (map get) parameters;
                     CedaDi.d_spatial := sp;
                     CedaDi.d_temporal := temporal |} |}) /\
    ((exists self, fst run = Ok self) <->
     (exists fs path, filesystem = Some fs /\ fs !! "path" = Some (PStr path))).
Proof.
  intros Hr Hlat Hlon run.
  destruct (init_spatial_cases r h d lats lons Hr Hlat Hlon) as (sp & Hsp & _).
  pose proof (init_spatial_filters r h d lats lons Hr Hlat Hlon) as Hf.
  cbn zeta in Hf. rewrite Hf in Hsp. cbn [fst] in Hsp.
  subst run. unfold CedaDi.__init__. rewrite Hf, Hsp. cbn [fst snd Py.bind].
  set (d' := <["lon" := _]> (<["lat" := _]> d)) in *.
  exists d', sp. split; [reflexivity|].
  split; [unfold d'; rewrite lookup_insert_ne by discriminate;
          apply lookup_insert_eq|].
  split; [apply lookup_insert_eq|].
  split.
  { intros k Hk1 Hk2. unfold d'. rewrite lookup_insert_ne by congruence.
    now rewrite lookup_insert_ne by congruence. }
  split; [intros r' Hne; now rewrite lookup_insert_ne by congruence|].
  split; [exact Hsp|]. split.
  - intros fs path -> Hp. unfold CedaDi.identifier. rewrite Hp. reflexivity.
  - unfold CedaDi.identifier. destruct filesystem as [fs|].
    2: { split; [intros [? [=]]|intros (? & ? & [=] & _)]. }
    destruct (fs !! "path") as [[ | | path | | | | ]|] eqn:Hp; cbn [Py.bind].
    all: try (split; [intros [? [=]]
                     |intros (? & ? & [= <-] & Hq); congruence]).
    split; [intros _; exists fs, path; auto|intros _; eexists; reflexivity].
Qed.

(** The theorem at a caller's dict with one invalid latitude and a third
    channel, with a path; the hash is left abstract as the identity. *)
Lemma init_rewrites_callers_spatial_witness :
  let d : gmap string chan :=
    <["time" := Samples [fl 1; fl 2]]> (spatial_of [fl 10; fl 200] [fl 20; fl 30]) in
  let h : gmap positive (gmap string chan) := {[7%positive := d]} in
  let filesystem : option (gmap string pyval) := Some {["path" := PStr "a.nc"]} in
  let run := CedaDi.__init__ (fun s => s) filesystem (Some 7%positive)
               None None None ∅ h in
  exists d' sp,
    snd run = <[7%positive := d']> h /\
    d' !! "lat" = Some (Samples (List.filter CedaDi.valid_lat [fl 10; fl 200])) /\
    d' !! "lon" = Some (Samples (List.filter CedaDi.valid_lon [fl 20; fl 30])) /\
    (forall k, k <> "lat" -> k <> "lon" -> d' !! k = d !! k) /\
    (forall r', r' <> 7%positive -> snd run !! r' = h !! r') /\
    CedaDi._to_geojson d' = Ok sp /\
    (forall fs path,
        filesystem = Some fs -> fs !! "path" = Some (PStr path) ->
        fst run
        = Ok {| CedaDi.filesystem := filesystem;
                CedaDi.temporal := None;
                CedaDi.data_format := None;
                CedaDi.parameters := option_map (map get) None;
                CedaDi.spatial := sp;
                CedaDi.misc := ∅;
                CedaDi.properties :=
                  {| CedaDi.d_id := (fun s : string => s) path;
                     CedaDi.d_data_format := None;
                     CedaDi.d_file := filesystem;
                     CedaDi.d_misc := ∅;
                     CedaDi.d_parameters := option_map (map get) None;
                     CedaDi.d_spatial := sp;
                     CedaDi.d_temporal := None |} |}) /\
    ((exists self, fst run = Ok self) <->
     (exists fs path, filesystem = Some fs /\ fs !! "path" = Some (PStr path))).
Proof.
  intros d h filesystem.
  apply (init_rewrites_callers_spatial (fun s => s) filesystem 7%positive
           None None None ∅ h d [fl 10; fl 200] [fl 20; fl 30]);
    reflexivity.
Defined.


(* ===================================================================== *)
(** * The block of the two normalizers                                   *)
(* ===================================================================== *)

(** C2 (amended).  On non-empty channels, and when no line of qconvex's
    output after the first two is a lone number, the eufar normalizer
    emits a block that always holds the deduplicated set of (lon, lat)
    pairs, and that holds a hull and a bounding box exactly when the set
    has more than 3 points.  The box has 4 corners.  The hull has one
    vertex for each line of qconvex's output, after the first two, whose
    first two fields convert to floats, in the order of the lines; the
    other lines are logged and skipped.  On the same channels, when each
    holds a value its validator accepts, the ceda_di normalizer emits a
    block with a bounding box and a summary, and with neither a
    coordinate set nor a hull, whatever the number of points. *)
Theorem eufar_normalizer_block (qconvex : list point -> list string)
    (float : string -> option pyfloat) (d : gmap string chan)
    (lats lons : list pyfloat) :
  d !! "lat" = Some (Samples lats) ->
  d !! "lon" = Some (Samples lons) ->
  lats <> [] -> lons <> [] ->
  (3 < length (Eufar.coord_set_of lats lons) ->
   lines_convert float (drop 2 (qconvex (Eufar.coord_set_of lats lons))) = true) ->
  (exists g log,
      Eufar._to_geojson qconvex float d = (Ok (Some g), log) /\
      Eufar.g_coordinates g = Eufar.coord_set_of lats lons /\
      deduplicated (lon_lat_pairs lats lons) (Eufar.g_coordinates g) /\
      geometries_item (Eufar.geojson_pyval g) "coordinates"
      = Some (PList (map point_pyval (Eufar.g_coordinates g))) /\
      (is_Some (Eufar.g_hull g) <-> 3 < length (Eufar.g_coordinates g)) /\
      (is_Some (Eufar.g_bbox g) <-> 3 < length (Eufar.g_coordinates g)) /\
      (forall bbox, Eufar.g_bbox g = Some bbox ->
                    length (coordinates bbox) = 4) /\
      (forall hull, Eufar.g_hull g = Some hull ->
         coordinates hull
         = omap (line_vertex float) (drop 2 (qconvex (Eufar.g_coordinates g))) /\
         (forall p, p ∈ coordinates hull <->
                    exists line c0 c1 rest,
                      line ∈ drop 2 (qconvex (Eufar.g_coordinates g)) /\
                      Py.split_space line = c0 :: c1 :: rest /\
                      float c0 = Some (fst p) /\ float c1 = Some (snd p)) /\
         log = skipped float (drop 2 (qconvex (Eufar.g_coordinates g))) /\
         length (coordinates hull) + length log
         = length (drop 2 (qconvex (Eufar.g_coordinates g))))) /\
  (List.filter CedaDi.valid_lat lats <> [] ->
   List.filter CedaDi.valid_lon lons <> [] ->
   exists g',
     CedaDi._to_geojson d = Ok (Some g') /\
     geometries_item (CedaDi.geojson_pyval g') "coordinates" = None /\
     geometries_item (CedaDi.geojson_pyval g') "hull" = None /\
     geometries_item (CedaDi.geojson_pyval g') "bbox"
     = Some (geometry_pyval corner_pyval (CedaDi.g_bbox g')) /\
     length (coordinates (CedaDi.g_bbox g')) = 4 /\
     geometries_item (CedaDi.geojson_pyval g') "summary"
     = Some (geometry_pyval point_pyval (CedaDi.g_summary g'))).
Proof.
  intros Hlat Hlon Hlats Hlons Hq. split.
  - destruct lats as [|y lats]; [congruence|].
    destruct lons as [|x lons]; [congruence|].
    pose proof (coord_set_deduplicated (y :: lats) (x :: lons)) as Hdd.
    unfold Eufar._to_geojson, getitem. rewrite Hlat, Hlon.
    cbn [Py.bind samples].
    change (0 <? length (y :: lats))%nat with true. cbn [Py.bind samples].
    change (0 <? length (x :: lons))%nat with true. cbv iota.
    set (cs := Eufar.coord_set_of (y :: lats) (x :: lons)) in *.
    destruct (Nat.ltb_spec 3 (length cs)) as [Hgt|Hle].
    + pose proof (Hq Hgt) as Hl. unfold Eufar._gen_hull.
      rewrite (hull_loop_value float _ [] [] Hl). cbn [app].
      rewrite (eufar_gen_bbox_ring d x y lats lons Hlat Hlon).
      cbn [Py.bind]. eexists _, _. split; [reflexivity|].
      cbn [Eufar.g_coordinates Eufar.g_hull Eufar.g_bbox].
      split; [reflexivity|]. split; [exact Hdd|]. split; [reflexivity|].
      split; [split; [intros _; exact Hgt|eauto]|].
      split; [split; [intros _; exact Hgt|eauto]|].
      split; [intros bbox [= <-]; reflexivity|].
      intros hull [= <-]. cbn [coordinates].
      split; [reflexivity|]. split; [|split; [reflexivity|]].
      * intros p. unfold converted. rewrite list_elem_of_omap. split.
        -- intros (line & Hin & Hv). apply line_vertex_spec in Hv
             as (c0 & c1 & rest & Hs & H0 & H1).
           exists line, c0, c1, rest. auto.
        -- intros (line & c0 & c1 & rest & Hin & Hs & H0 & H1).
           exists line. split; [exact Hin|]. apply line_vertex_spec.
           exists c0, c1, rest. auto.
      * destruct (hull_loop_ok float (drop 2 (qconvex cs)) [] [] Hl)
          as (hc & lg & Heq & Hlen).
        rewrite (hull_loop_value float _ [] [] Hl) in Heq. cbn [app] in Heq.
        injection Heq as <- <-. exact Hlen.
    + eexists _, []. split; [reflexivity|].
      cbn [Eufar.g_coordinates Eufar.g_hull Eufar.g_bbox].
      split; [reflexivity|]. split; [exact Hdd|]. split; [reflexivity|].
      split; [split; [intros [? Hn]; discriminate Hn|lia]|].
      split; [split; [intros [? Hn]; discriminate Hn|lia]|].
      split; intros ? Hn; discriminate Hn.
  - intros Klat Klon.
    destruct (List.filter CedaDi.valid_lon lons) as [|x kx] eqn:Hx;
      [congruence|].
    destruct (List.filter CedaDi.valid_lat lats) as [|y ky] eqn:Hy;
      [congruence|].
    eexists. split.
    + unfold CedaDi._to_geojson, getitem. rewrite Hlat, Hlon.
      cbn [Py.bind samples].
      destruct lats as [|y0 lats]; [congruence|].
      destruct lons as [|x0 lons]; [congruence|].
      change (0 <? length (y0 :: lats))%nat with true. cbn [Py.bind samples].
      change (0 <? length (x0 :: lons))%nat with true. cbv iota.
      rewrite (ceda_gen_bbox_value d _ _ x y kx ky Hlat Hlon Hx Hy).
      rewrite (ceda_summary_value d _ _ Hlon Hlat); [|discriminate].
      reflexivity.
    + repeat split.
Qed.

(** The theorem on the four corners of the unit square. *)
Lemma eufar_normalizer_block_witness :
  let lats := [fl 0; fl 0; fl 1; fl 1] in
  let lons := [fl 0; fl 1; fl 0; fl 1] in
  let d := spatial_of lats lons in
  (exists g log,
      Eufar._to_geojson qconvex_square float_digit d = (Ok (Some g), log) /\
      Eufar.g_coordinates g = Eufar.coord_set_of lats lons /\
      deduplicated (lon_lat_pairs lats lons) (Eufar.g_coordinates g) /\
      geometries_item (Eufar.geojson_pyval g) "coordinates"
      = Some (PList (map point_pyval (Eufar.g_coordinates g))) /\
      (is_Some (Eufar.g_hull g) <-> 3 < length (Eufar.g_coordinates g)) /\
      (is_Some (Eufar.g_bbox g) <-> 3 < length (Eufar.g_coordinates g)) /\
      (forall bbox, Eufar.g_bbox g = Some bbox ->
                    length (coordinates bbox) = 4) /\
      (forall hull, Eufar.g_hull g = Some hull ->
         coordinates hull
         = omap (line_vertex float_digit)
             (drop 2 (qconvex_square (Eufar.g_coordinates g))) /\
         (forall p, p ∈ coordinates hull <->
                    exists line c0 c1 rest,
                      line ∈ drop 2 (qconvex_square (Eufar.g_coordinates g)) /\
                      Py.split_space line = c0 :: c1 :: rest /\
                      float_digit c0 = Some (fst p) /\
                      float_digit c1 = Some (snd p)) /\
         log = skipped float_digit
                 (drop 2 (qconvex_square (Eufar.g_coordinates g))) /\
         length (coordinates hull) + length log
         = length (drop 2 (qconvex_square (Eufar.g_coordinates g))))) /\
  (List.filter CedaDi.valid_lat lats <> [] ->
   List.filter CedaDi.valid_lon lons <> [] ->
   exists g',
     CedaDi._to_geojson d = Ok (Some g') /\
     geometries_item (CedaDi.geojson_pyval g') "coordinates" = None /\
     geometries_item (CedaDi.geojson_pyval g') "hull" = None /\
     geometries_item (CedaDi.geojson_pyval g') "bbox"
     = Some (geometry_pyval corner_pyval (CedaDi.g_bbox g')) /\
     length (coordinates (CedaDi.g_bbox g')) = 4 /\
     geometries_item (CedaDi.geojson_pyval g') "summary"
     = Some (geometry_pyval point_pyval (CedaDi.g_summary g'))).
Proof.
  intros lats lons d.
  apply (eufar_normalizer_block qconvex_square float_digit d lats lons);
    [reflexivity|reflexivity|discriminate|discriminate|reflexivity].
Defined.


(* ===================================================================== *)
(** * Export: as_dict and as_json                                        *)
(* ===================================================================== *)

Section ExportViews.

Variable utf8_decode : string -> option (list nat).





























End ExportViews.



(** A record without spatial group and with a NaN among its extra
    metadata: no tuple anywhere, and the decoded document still differs
    from the mapping, NaN being different from itself. *)
Example as_json_nan_differs :
  exists self doc,
    fst (CedaDi.__init__ (fun s => s) (Some {["path" := PStr "a.nc"]})
           None None None None {["gain" := PFloat Py.nan]} ∅) = Ok self /\
    CedaDi.as_json (fun _ => None) self = Ok doc /\
    Json.py_eq (Json.loads doc)
      (CedaDi.properties_pyval (CedaDi.as_dict self)) = false.
Proof.
  eexists _, _. split; [vm_compute; reflexivity|].
  split; vm_compute; reflexivity.
Qed.

(** An object the encoder does not know is written as the string of its
    [repr]; a byte string that is not UTF-8 makes [as_json] raise. *)
Example as_json_foreign_and_bad_bytes :
  Json.dumps (fun _ => None) (PList [PObj "<Foo>"; PNone])
  = Ok (JArr [JStr (Json.code_points "<Foo>"); JNull]) /\
  exists self,
    fst (CedaDi.__init__ (fun s => s) (Some {["path" := PStr "a.nc"]})
           None None None None
           {["note" := PStr (String (ascii_of_nat 255) EmptyString)]} ∅)
    = Ok self /\
    CedaDi.as_json (fun _ => None) self = Raise ValueError.
Proof.
  split; [reflexivity|]. eexists. split; vm_compute; reflexivity.
Qed.
